(** * AI Tutor backend: the HTTP handlers of [main.py] over a document store

    A shallow embedding of the request handlers of [src/main.py] and of the
    validated models of [src/schemas.py].  The handlers are stateful: they
    read and write the collections of a document store and the upload
    directory, and they fail by raising.  They are embedded in a small
    state-and-exception monad over an explicit [world]. *)

From Stdlib Require Import ZArith Ascii String.
From stdpp Require Import base option list gmap strings stringmap fin_maps.

Local Open Scope string_scope.
Local Open Scope Z_scope.
Local Open Scope list_scope.

(** ** Values and documents *)

(** The values a document field holds: [None], booleans, [str], [int],
    [List[str]] and [datetime] (an instant on an integer time line). *)
Inductive value :=
| VNone
| VBool (b : bool)
| VStr (s : string)
| VInt (n : Z)
| VStrList (l : list string)
| VDatetime (t : Z).

Global Instance value_eq_dec : EqDecision value.
Proof. solve_decision. Defined.

(** A document identifier: the store's native [ObjectId], represented by
    its hexadecimal text (what [str] returns for it), or a plain string. *)
Inductive ident :=
| ObjectId (hex : string)
| StrId (s : string).

Global Instance ident_eq_dec : EqDecision ident.
Proof. solve_decision. Defined.

(** [str(_id)] *)
Definition str_ident (i : ident) : string :=
  match i with
  | ObjectId hex => hex
  | StrId s => s
  end.

(** A plain mapping (a Python [dict] with string keys). *)
Abbreviation dict := (gmap string value).

(** A stored document: the store gives every document an [_id]; the
    remaining fields form a mapping. [doc["_id"]] is [doc_id]. *)
Record document := Doc { doc_id : ident; doc_fields : dict }.

Global Instance document_eq_dec : EqDecision document.
Proof. solve_decision. Defined.

Definition of_opt {A} (f : A → value) (o : option A) : value :=
  match o with
  | Some a => f a
  | None => VNone
  end.

(** ** The models of [schemas.py] *)

Module Subject.
Record t := Make {
  user_id : string;
  name : string;
  description : option string }.

Definition model_dump (s : t) : dict :=
  <["user_id" := VStr (user_id s)]>
  (<["name" := VStr (name s)]>
  (<["description" := of_opt VStr (description s)]> ∅)).
End Subject.

Module Book.
Record t := Make {
  user_id : string;
  subject_id : string;
  title : string;
  original_filename : option string;
  file_path : option string;
  pages : option (list string);
  num_pages : option Z }.

Definition model_dump (b : t) : dict :=
  <["user_id" := VStr (user_id b)]>
  (<["subject_id" := VStr (subject_id b)]>
  (<["title" := VStr (title b)]>
  (<["original_filename" := of_opt VStr (original_filename b)]>
  (<["file_path" := of_opt VStr (file_path b)]>
  (<["pages" := of_opt VStrList (pages b)]>
  (<["num_pages" := of_opt VInt (num_pages b)]> ∅)))))).
End Book.

Module LessonRequest.
Inductive source_mode_t := page_range | lines_mode | chapter | custom.

Record t := Make {
  user_id : string;
  subject_id : string;
  book_id : string;
  prompt : string;
  source_mode : source_mode_t;
  start_page : option Z;
  end_page : option Z;
  lines : option Z }.
End LessonRequest.

Module Lesson.
Inductive status_t := pending | processing | complete | error_status.

Definition status_str (s : status_t) : string :=
  match s with
  | pending => "pending"
  | processing => "processing"
  | complete => "complete"
  | error_status => "error"
  end.

Record t := Make {
  user_id : string;
  subject_id : string;
  book_id : string;
  request_id : option string;
  prompt : string;
  status : status_t;
  input_excerpt : option string;
  explanation : option string;
  analogies : option (list string);
  error : option string;
  scheduled_at : option Z }.

Definition model_dump (l : t) : dict :=
  <["user_id" := VStr (user_id l)]>
  (<["subject_id" := VStr (subject_id l)]>
  (<["book_id" := VStr (book_id l)]>
  (<["request_id" := of_opt VStr (request_id l)]>
  (<["prompt" := VStr (prompt l)]>
  (<["status" := VStr (status_str (status l))]>
  (<["input_excerpt" := of_opt VStr (input_excerpt l)]>
  (<["explanation" := of_opt VStr (explanation l)]>
  (<["analogies" := of_opt VStrList (analogies l)]>
  (<["error" := of_opt VStr (error l)]>
  (<["scheduled_at" := of_opt VDatetime (scheduled_at l)]> ∅)))))))))).
End Lesson.

Module Progress.
Record t := Make {
  user_id : string;
  subject_id : string;
  book_id : string;
  last_covered_page : option Z;
  last_covered_line : option Z;
  notes : option string }.

Definition model_dump (p : t) : dict :=
  <["user_id" := VStr (user_id p)]>
  (<["subject_id" := VStr (subject_id p)]>
  (<["book_id" := VStr (book_id p)]>
  (<["last_covered_page" := of_opt VInt (last_covered_page p)]>
  (<["last_covered_line" := of_opt VInt (last_covered_line p)]>
  (<["notes" := of_opt VStr (notes p)]> ∅))))).
End Progress.

(** ** The world the handlers run in *)

(** [db]: the collections of the store, each a sequence of documents in
    insertion order (a collection never written to is empty).
    [uploads]: the files of the upload directory, by path. *)
Record world := World {
  db : gmap string (list document);
  uploads : gmap string (list Byte.byte) }.

Definition collection (w : world) (name : string) : list document :=
  default [] (db w !! name).

Definition set_collection (name : string) (c : list document) (w : world) : world :=
  {| db := <[name := c]> (db w); uploads := uploads w |}.

(** The upload directory with the file at [path] holding [data]. *)
Definition put_file (path : string) (data : list Byte.byte) (w : world) : world :=
  {| db := db w; uploads := <[path := data]> (uploads w) |}.

(** ** Exceptions and the handler monad *)

(** [Exception] stands for any other Python exception, by the name of its
    class; [RequestValidationError] is the framework's 422 for a body or a
    form that does not validate, with the required fields it misses. *)
Inductive exn :=
| HTTPException (status_code : Z) (detail : string)
| TypeError (msg : string)
| RequestValidationError (missing : list string)
| Exception (class_name : string) (msg : string).

Inductive outcome (A : Type) :=
| Return (a : A)
| Raise (e : exn).
Arguments Return {A} a.
Arguments Raise {A} e.

Definition M (A : Type) : Type := world → outcome A * world.

Definition raise {A} (e : exn) : M A := λ w, (Raise e, w).

(** Sequencing: a raised exception skips the rest, and what was written
    before it stays written. [x ← m; k] is stdpp's notation for it. *)
Global Instance M_ret : MRet M := λ A a w, (Return a, w).
Global Instance M_bind : MBind M := λ A B k m w,
  match m w with
  | (Return a, w') => k a w'
  | (Raise e, w') => (Raise e, w')
  end.

(** ** The store operations used by the handlers *)

(** A query filter: [{"_id": i}] (also written [{"_id": {"$eq": i}}]), or
    a conjunction of field equalities [{k1: v1, k2: v2}]. *)
Inductive query :=
| IdEq (i : ident)
| FieldsEq (kvs : list (string * value)).

Definition matches (q : query) (d : document) : bool :=
  match q with
  | IdEq i => bool_decide (doc_id d = i)
  | FieldsEq kvs =>
      forallb (λ kv, bool_decide (doc_fields d !! kv.1 = Some kv.2)) kvs
  end.

(** [db[name].find_one(q)]: the first matching document, or [None]. *)
Definition find_one (name : string) (q : query) : M (option document) :=
  λ w, (Return (find (matches q) (collection w name)), w).

(** [$set]: the given fields are written over the document's. *)
Definition apply_set (updates : dict) (d : document) : document :=
  {| doc_id := doc_id d; doc_fields := updates ∪ doc_fields d |}.

Fixpoint update_first (q : query) (updates : dict) (c : list document) : list document :=
  match c with
  | [] => []
  | d :: c' =>
      if matches q d then apply_set updates d :: c'
      else d :: update_first q updates c'
  end.

(** [db[name].update_one(q, {"$set": updates})]: the first matching
    document is updated; nothing happens when none matches. *)
Definition update_one (name : string) (q : query) (updates : dict) : M unit :=
  λ w, (Return (), set_collection name (update_first q updates (collection w name)) w).

(** The [ObjectId]s in use in a collection, by their text. *)
Definition object_ids (c : list document) : list string :=
  omap (λ d, match doc_id d with ObjectId h => Some h | StrId _ => None end) c.

(** Identifier generation: an [ObjectId] that no document of the
    collection carries. *)
Definition new_object_id (c : list document) : ident :=
  ObjectId (fresh_string_of_set "oid" (list_to_set (object_ids c))).

(** [db[name].insert_one(fields)] for a mapping without [_id]: the store
    assigns a new [ObjectId] and appends the document. *)
Definition insert_one (name : string) (fields : dict) : M ident :=
  λ w, let c := collection w name in
       let i := new_object_id c in
       (Return i, set_collection name (c ++ [Doc i fields]) w).

(** Modelled from the spec: [database.create_document] is not among the
    sources. "create(collection, document) → id: serializes the document
    (validated shape → plain mapping) and inserts it; returns a stringified
    identifier."  The argument is the mapping, already serialized by the
    caller's [model_dump]. *)
Definition create_document (name : string) (data : dict) : M string :=
  i ← insert_one name data;
  mret (str_ident i).

(** A stored document as a plain mapping with its identifier stringified. *)
Definition doc_view (d : document) : dict :=
  <["_id" := VStr (str_ident (doc_id d))]> (doc_fields d).

(** Modelled from the spec: [database.get_documents] is not among the
    sources. "query(collection, filter) → sequence of documents: returns all
    matching documents as plain mappings, identifiers stringified for
    transport." *)
Definition get_documents (name : string) (q : query) : M (list dict) :=
  λ w, (Return (doc_view <$> filter (λ d, matches q d = true) (collection w name)), w).

(** ** Python string operations used by the handlers *)

(** [c.lower()] on one character: ASCII letters are folded, every other
    byte is kept. *)
Definition lower_ascii (c : ascii) : ascii :=
  let n := nat_of_ascii c in
  if (Nat.leb 65 n && Nat.leb n 90)%bool then ascii_of_nat (n + 32) else c.

(** [s.lower()] *)
Fixpoint lower (s : string) : string :=
  match s with
  | EmptyString => EmptyString
  | String c s' => String (lower_ascii c) (lower s')
  end.

(** [s.endswith(suffix)] *)
Definition endswith (s suffix : string) : bool :=
  let n := String.length s in
  let m := String.length suffix in
  (Nat.leb m n && bool_decide (substring (n - m) m s = suffix))%bool.

(** [s.replace(old, new)] for a non-empty [old]: the occurrences of [old]
    are replaced from left to right, without overlap. [skip] counts the
    characters of a matched occurrence still to be dropped. *)
Fixpoint replace_from (skip : nat) (old new s : string) : string :=
  match s with
  | EmptyString => EmptyString
  | String c s' =>
      match skip with
      | S k => replace_from k old new s'
      | O =>
          if String.prefix old s
          then new +:+ replace_from (String.length old - 1) old new s'
          else String c (replace_from 0 old new s')
      end
  end.

Definition replace (s old new : string) : string := replace_from 0 old new s.

(** [os.path.join(a, b)] for a relative [b]. *)
Definition path_join (a b : string) : string := a +:+ "/" +:+ b.

(** Whether [old] occurs in [s]. *)
Fixpoint occurs (old s : string) : bool :=
  match s with
  | EmptyString => String.prefix old EmptyString
  | String _ s' => (String.prefix old s || occurs old s')%bool
  end.

(** The text of one null character. *)
Definition NUL : string := String Ascii.zero EmptyString.

(** [with open(fpath, "wb") as out: out.write(data)], where [fpath] is
    [uploads/<uuid4>-<filename>] and the upload directory exists and has no
    subdirectory (the program creates none). A null character in the path
    is refused by [open] itself; a path separator in [filename] makes the
    parent of [fpath] a directory that does not exist. The text of a uuid
    has neither. Otherwise the file is created or truncated and written. *)
Definition write_file (filename fpath : string) (data : list Byte.byte) : M unit :=
  if occurs NUL filename
  then raise (Exception "ValueError" "embedded null byte")
  else if occurs "/" filename
  then raise (Exception "FileNotFoundError" fpath)
  else λ w, (Return (), put_file fpath data w).

(** A file name with no null character and no path separator. *)
Definition plain_name (filename : string) : bool :=
  (negb (occurs NUL filename) && negb (occurs "/" filename))%bool.

(** ** The handlers of [main.py] *)

(** [bool(user_id)] for an [Optional[str]]: [None] and the empty string
    are false. *)
Definition truthy (s : option string) : bool :=
  match s with
  | Some (String _ _) => true
  | _ => false
  end.

(** The dependency returns its parameter as it is; [current_user_id]
    below says where the framework takes that parameter from. *)
Definition get_current_user_id (x_user_id : option string) : option string :=
  x_user_id.

Definition missing_user_id : exn := HTTPException 401 "Missing user id".

(** [POST /api/subjects]. [user_id] is what [Depends(get_current_user_id)]
    yields for the request. *)
Definition create_subject (subject : Subject.t) (user_id : option string) : M dict :=
  let user_id :=
    if negb (truthy user_id) then Some (Subject.user_id subject) else user_id in
  if negb (truthy user_id) then raise missing_user_id
  else
    let payload := <["user_id" := of_opt VStr user_id]> (Subject.model_dump subject) in
    _id ← create_document "subject" payload;
    mret ({[ "id" := VStr _id ]} : dict).

(** [GET /api/subjects] *)
Definition list_subjects (user_id : option string) : M (list dict) :=
  if negb (truthy user_id) then raise missing_user_id
  else get_documents "subject" (FieldsEq [("user_id", of_opt VStr user_id)]).

Definition UPLOAD_DIR : string := "uploads".

Definition only_pdf : exn := HTTPException 400 "Only PDF files are supported".

(** [POST /api/books/upload]. [user_id] and [subject_id] are the form
    fields, both declared [Form(...)]: a request without one of them is
    answered 422 by the framework and does not reach the handler.
    [filename] and [content] are [file.filename] and what [file.read()]
    returns; [uuid4] is the text of the identifier [uuid.uuid4()] draws
    during the call. *)
Definition upload_book (user_id subject_id : string)
    (filename : string) (content : list Byte.byte) (uuid4 : string) : M dict :=
  if negb (endswith (lower filename) ".pdf")
  then raise only_pdf
  else
    let book_id := uuid4 in
    let fname := book_id +:+ "-" +:+ filename in
    let fpath := path_join UPLOAD_DIR fname in
    _ ← write_file filename fpath content;
    let book := {|
      Book.user_id := user_id;
      Book.subject_id := subject_id;
      Book.title := replace filename ".pdf" "";
      Book.original_filename := Some filename;
      Book.file_path := Some fpath;
      Book.pages := None;
      Book.num_pages := None |} in
    _id ← create_document "book" (Book.model_dump book);
    mret (<["id" := VStr _id]> {[ "file_path" := VStr fpath ]} : dict).

(** [POST /api/lessons]. The second [if not user_id] is the match on the
    user id: a non-empty string goes on, [None] and the empty string
    raise. *)
Definition request_lesson (req : LessonRequest.t) (user_id : option string) : M dict :=
  let user_id :=
    if negb (truthy user_id) then Some (LessonRequest.user_id req) else user_id in
  match user_id with
  | Some (String c u as uid) =>
      let lesson := {|
        Lesson.user_id := uid;
        Lesson.subject_id := LessonRequest.subject_id req;
        Lesson.book_id := LessonRequest.book_id req;
        Lesson.request_id := None;
        Lesson.prompt := LessonRequest.prompt req;
        Lesson.status := Lesson.pending;
        Lesson.input_excerpt := None;
        Lesson.explanation := None;
        Lesson.analogies := None;
        Lesson.error := None;
        Lesson.scheduled_at := None |} in
      _id ← create_document "lesson" (Lesson.model_dump lesson);
      mret (<["id" := VStr _id]> {[ "status" := VStr "queued" ]} : dict)
  | _ => raise missing_user_id
  end.

(** [POST /api/progress]. [now] is what [datetime.utcnow()] returns during
    the call. *)
Definition upsert_progress (progress : Progress.t) (user_id : option string)
    (now : Z) : M dict :=
  let user_id :=
    if negb (truthy user_id) then Some (Progress.user_id progress) else user_id in
  if negb (truthy user_id) then raise missing_user_id
  else
    existing ← find_one "progress"
      (FieldsEq [("user_id", of_opt VStr user_id);
                 ("book_id", VStr (Progress.book_id progress))]);
    let payload := <["user_id" := of_opt VStr user_id]> (Progress.model_dump progress) in
    match existing with
    | Some e =>
        _ ← update_one "progress" (IdEq (doc_id e))
              (<["updated_at" := VDatetime now]> payload);
        mret ({[ "id" := VStr (str_ident (doc_id e)) ]} : dict)
    | None =>
        _id ← create_document "progress" payload;
        mret ({[ "id" := VStr _id ]} : dict)
    end.

(** The dict comprehension [{k: v for k, v in items if v is not None}]. *)
Definition not_none (items : list (string * option value)) : dict :=
  foldr (λ kv m, match kv.2 with Some v => <[kv.1 := v]> m | None => m end) ∅ items.

(** The [updates] of [patch_lesson]: of the six candidate fields, those
    that are not [None]; [updated_at] always is one. *)
Definition patch_updates (status input_excerpt explanation : option string)
    (analogies : option (list string)) (error : option string) (now : Z) : dict :=
  not_none [
    ("status", VStr <$> status);
    ("input_excerpt", VStr <$> input_excerpt);
    ("explanation", VStr <$> explanation);
    ("analogies", VStrList <$> analogies);
    ("error", VStr <$> error);
    ("updated_at", Some (VDatetime now)) ].

Definition none_not_subscriptable : exn :=
  TypeError "'NoneType' object is not subscriptable".

Section patch.
(** The store handle [db] comes from the [database] module, which is not
    among the sources; the conversion
    [db["lesson"].get_serializer().to_bson] of an identifier text to the
    store's identifier is taken as a parameter. It either returns an
    identifier or raises (the store has no serializer, or the serializer
    rejects the text); nothing catches what it raises. *)
Variable to_bson : string → outcome ident.

(** [PATCH /api/lessons/{lesson_id}]. [now] is what [datetime.utcnow()]
    returns during the call. With [doc] being [None], [doc["_id"]]
    raises. *)
Definition patch_lesson (lesson_id : string) (status input_excerpt explanation : option string)
    (analogies : option (list string)) (error : option string) (now : Z) : M dict :=
  native ← ((λ w, (to_bson lesson_id, w)) : M ident);
  doc ← find_one "lesson" (IdEq native);
  doc ← (match doc with
         | None => find_one "lesson" (IdEq (StrId lesson_id))
         | Some _ => mret doc
         end);
  let updates := patch_updates status input_excerpt explanation analogies error now in
  match doc with
  | None => raise none_not_subscriptable
  | Some d =>
      _ ← update_one "lesson" (IdEq (doc_id d)) updates;
      mret ({[ "ok" := VBool true ]} : dict)
  end.
End patch.

Definition empty_world : world := {| db := ∅; uploads := ∅ |}.

(** ** The remaining handlers of [main.py] and the [Schedule] model *)

Module Schedule.
Record t := Make {
  user_id : string;
  subject_id : string;
  book_id : string;
  prompt : string;
  schedule_time_iso : string;
  timezone : option string;
  n8n_job_id : option string }.

Definition model_dump (s : t) : dict :=
  <["user_id" := VStr (user_id s)]>
  (<["subject_id" := VStr (subject_id s)]>
  (<["book_id" := VStr (book_id s)]>
  (<["prompt" := VStr (prompt s)]>
  (<["schedule_time_iso" := VStr (schedule_time_iso s)]>
  (<["timezone" := of_opt VStr (timezone s)]>
  (<["n8n_job_id" := of_opt VStr (n8n_job_id s)]> ∅)))))).
End Schedule.

(** [GET /] *)
Definition read_root : dict := {[ "message" := VStr "AI Tutor Backend is running" ]}.

(** [GET /api/books] *)
Definition list_books (subject_id : string) (user_id : option string) : M (list dict) :=
  if negb (truthy user_id) then raise missing_user_id
  else get_documents "book"
         (FieldsEq [("user_id", of_opt VStr user_id); ("subject_id", VStr subject_id)]).

(** [GET /api/progress] *)
Definition get_progress (book_id : string) (user_id : option string) : M (list dict) :=
  if negb (truthy user_id) then raise missing_user_id
  else get_documents "progress"
         (FieldsEq [("user_id", of_opt VStr user_id); ("book_id", VStr book_id)]).

(** [bool(v)] for a field value. *)
Definition value_truthy (v : value) : bool :=
  match v with
  | VNone => false
  | VBool b => b
  | VStr s => negb (bool_decide (s = ""))
  | VInt n => negb (bool_decide (n = 0))
  | VStrList l => negb (bool_decide (l = []))
  | VDatetime _ => true
  end.

(** [payload.get(k)] *)
Definition dict_get (m : dict) (k : string) : value := default VNone (m !! k).

(** [POST /api/schedules]. [uuid4] is the text of the identifier
    [uuid.uuid4()] draws when the right operand of [or] is evaluated. *)
Definition create_schedule (s : Schedule.t) (user_id : option string)
    (uuid4 : string) : M dict :=
  let user_id :=
    if negb (truthy user_id) then Some (Schedule.user_id s) else user_id in
  if negb (truthy user_id) then raise missing_user_id
  else
    let payload := <["user_id" := of_opt VStr user_id]> (Schedule.model_dump s) in
    let job :=
      if value_truthy (dict_get payload "n8n_job_id")
      then dict_get payload "n8n_job_id" else VStr uuid4 in
    let payload := <["n8n_job_id" := job]> payload in
    _id ← create_document "schedule" payload;
    mret (<["id" := VStr _id]> {[ "n8n_job_id" := dict_get payload "n8n_job_id" ]} : dict).

(** ** How a request reaches the handlers *)

(** The parts of an HTTP request the user id can come from. *)
Record request := Request {
  req_headers : gmap string string;
  req_query : gmap string string }.

(** What [Depends(get_current_user_id)] yields for a request. The
    parameter [x_user_id: Optional[str] = None] is declared without
    [Header()] ([Header] is not imported): the framework reads such a
    parameter from the query string, under its own name, and reads no
    header for it. *)
Definition current_user_id (req : request) : option string :=
  get_current_user_id (req_query req !! "x_user_id").

(** The JSON body sent to [POST /api/subjects], before validation. *)
Module SubjectBody.
Record t := Make {
  user_id : option string;
  name : option string;
  description : option string }.

(** [Subject] declares [user_id] and [name] with [Field(...)]: both are
    required, and a body without one is answered 422 before the handler
    runs. *)
Definition validate (b : t) : outcome Subject.t :=
  match user_id b, name b with
  | Some u, Some n => Return (Subject.Make u n (description b))
  | None, Some _ => Raise (RequestValidationError ["user_id"])
  | Some _, None => Raise (RequestValidationError ["name"])
  | None, None => Raise (RequestValidationError ["user_id"; "name"])
  end.
End SubjectBody.

(** [POST /api/subjects], from the request in. *)
Definition post_api_subjects (req : request) (body : SubjectBody.t) : M dict :=
  match SubjectBody.validate body with
  | Raise e => raise e
  | Return subject => create_subject subject (current_user_id req)
  end.

(** [POST /api/progress], from the request in, for a body that validates. *)
Definition post_api_progress (req : request) (progress : Progress.t) (now : Z) : M dict :=
  upsert_progress progress (current_user_id req) now.

(** ** Vocabulary of the statements *)

(** The user id a handler works with: the one the dependency yields when
    that is non-empty, the body's otherwise. *)
Definition resolved (user_id : option string) (body_user_id : string) : option string :=
  if truthy user_id then user_id else Some body_user_id.

Definition progress_query (u b : string) : query :=
  FieldsEq [("user_id", VStr u); ("book_id", VStr b)].

(** The fields [POST /api/progress] writes. *)
Definition progress_payload (u : string) (progress : Progress.t) : dict :=
  <["user_id" := VStr u]> (Progress.model_dump progress).

(** The Progress records of a collection for the key (user, book). *)
Definition records_for (u b : string) (c : list document) : list document :=
  filter (λ d, matches (progress_query u b) d = true) c.

(** The lookup of [patch_lesson]: what the serializer raises, if it
    raises; else the first record whose [_id] is the identifier it returned,
    else the first whose [_id] is the text itself, else [None]. *)
Definition located (to_bson : string → outcome ident) (lesson_id : string)
    (c : list document) : outcome (option document) :=
  match to_bson lesson_id with
  | Raise e => Raise e
  | Return native =>
      Return (match find (matches (IdEq native)) c with
              | Some d => Some d
              | None => find (matches (IdEq (StrId lesson_id))) c
              end)
  end.

(** A serializer that takes every text: [ObjectId(text)]. *)
Definition any_object_id (text : string) : outcome ident := Return (ObjectId text).

Definition is_hex_digit (c : ascii) : bool :=
  let n := nat_of_ascii c in
  ((Nat.leb 48 n && Nat.leb n 57) || (Nat.leb 65 n && Nat.leb n 70)
   || (Nat.leb 97 n && Nat.leb n 102))%bool.

(** A serializer in the manner of [bson.ObjectId]: a text of 24
    hexadecimal digits gives an identifier, any other text raises
    [InvalidId]. *)
Definition hex_object_id (text : string) : outcome ident :=
  if (Nat.eqb (String.length text) 24
      && forallb is_hex_digit (list_ascii_of_string text))%bool
  then Return (ObjectId (lower text))
  else Raise (Exception "InvalidId" text).

(** ** Sample requests and worlds *)

Definition two_subjects : world :=
  set_collection "subject"
    [Doc (ObjectId "a1") (Subject.model_dump (Subject.Make "u1" "Chemistry" None));
     Doc (ObjectId "a2") (Subject.model_dump (Subject.Make "u2" "Physics" None))]
    empty_world.

Definition a_request : LessonRequest.t :=
  LessonRequest.Make "u1" "s1" "b1" "Explain chapter 1" LessonRequest.lines_mode
    None None (Some 50).

Definition a_progress : Progress.t :=
  Progress.Make "body-user" "s1" "b1" (Some 3) None None.

Definition first_progress : Progress.t :=
  Progress.Make "u1" "s1" "b1" (Some 3) (Some 10) (Some "first").

Definition second_progress : Progress.t :=
  Progress.Make "u1" "s1" "b1" (Some 5) None None.

(** A progress collection that already holds two records for one key. *)
Definition duplicated_progress : world :=
  set_collection "progress"
    [Doc (ObjectId "a1") (progress_payload "u1" first_progress);
     Doc (ObjectId "a2") (progress_payload "u1" first_progress)]
    empty_world.

Definition explained_lesson : dict :=
  <["explanation" := VStr "Atoms are like bricks"]>
  (<["analogies" := VStrList ["bricks"; "lego"]]>
  (<["status" := VStr "processing"]>
  (Lesson.model_dump
     (Lesson.Make "u1" "s1" "b1" None "Explain chapter 1" Lesson.pending
        None None None None None)))).

Definition one_lesson : world :=
  set_collection "lesson" [Doc (ObjectId "a1") explained_lesson] empty_world.


(** ** Runs of the service *)

(** One request served: the world before and after a call of one of the
    handlers, with any arguments. *)
Inductive step (to_bson : string → outcome ident) : world → world → Prop :=
| step_create_subject subject user_id w :
    step to_bson w (create_subject subject user_id w).2
| step_list_subjects user_id w :
    step to_bson w (list_subjects user_id w).2
| step_upload_book user_id subject_id filename content uuid4 w :
    step to_bson w (upload_book user_id subject_id filename content uuid4 w).2
| step_list_books subject_id user_id w :
    step to_bson w (list_books subject_id user_id w).2
| step_request_lesson req user_id w :
    step to_bson w (request_lesson req user_id w).2
| step_get_progress book_id user_id w :
    step to_bson w (get_progress book_id user_id w).2
| step_upsert_progress progress user_id now w :
    step to_bson w (upsert_progress progress user_id now w).2
| step_create_schedule s user_id uuid4 w :
    step to_bson w (create_schedule s user_id uuid4 w).2
| step_patch_lesson lesson_id status input_excerpt explanation analogies error now w :
    step to_bson w
      (patch_lesson to_bson lesson_id status input_excerpt explanation analogies error now w).2.

(** Identifiers are unique within every collection, and there is at most
    one Progress record per (user, book). *)
Definition store_ok (w : world) : Prop :=
  (∀ name, NoDup (doc_id <$> collection w name)) ∧
  (∀ u b, (length (records_for u b (collection w "progress")) ≤ 1)%nat).

Definition a_schedule : Schedule.t :=
  Schedule.Make "u1" "s1" "b1" "Explain chapter 2" "2026-01-01T09:00:00" None None.

(** ** Further vocabulary and sample worlds *)

(** The job id a schedule is stored with: the body's when it has a
    non-empty one, the drawn [uuid4] otherwise. *)
Definition job_id_of (s : Schedule.t) (uuid4 : string) : string :=
  match Schedule.n8n_job_id s with
  | Some (String c j) => String c j
  | _ => uuid4
  end.

(** How one call may change a collection: not at all, by one document
    appended under a new identifier, or by one update in place. *)
Definition changes_collection (c c' : list document) : Prop :=
  c' = c ∨
  (∃ fields, c' = c ++ [Doc (new_object_id c) fields]) ∨
  (∃ q updates, c' = update_first q updates c).

Definition anonymous_request : LessonRequest.t :=
  LessonRequest.Make "" "s1" "b1" "Explain chapter 1" LessonRequest.lines_mode
    None None None.

Definition anonymous_progress : Progress.t :=
  Progress.Make "" "s1" "b1" (Some 3) None None.

Definition anonymous_schedule : Schedule.t :=
  Schedule.Make "" "s1" "b1" "Explain chapter 2" "2026-01-01T09:00:00" None None.

Definition two_books : world :=
  set_collection "book"
    [Doc (ObjectId "c1")
       (Book.model_dump (Book.Make "u1" "s1" "notes" (Some "notes.pdf") None None None));
     Doc (ObjectId "c2")
       (Book.model_dump (Book.Make "u1" "s2" "other" (Some "other.pdf") None None None))]
    empty_world.

Definition noted_progress : world :=
  set_collection "progress"
    [Doc (ObjectId "a1")
       (<["created_at" := VDatetime 1]> (progress_payload "u1" first_progress))]
    empty_world.

Definition after_two_upserts : world :=
  (upsert_progress second_progress (Some "u1") 2
     (upsert_progress first_progress None 1 empty_world).2).2.

Definition after_request_and_patch : world :=
  (patch_lesson any_object_id "oid" (Some "complete") None None None None 9
     (request_lesson a_request None one_lesson).2).2.

(** A lesson stored under a string identifier. *)
Definition named_lesson : world :=
  set_collection "lesson" [Doc (StrId "lesson-1") explained_lesson] empty_world.

(** A request with an [X-User-Id] header and no query string. *)
Definition with_header (h : string) : request :=
  {| req_headers := {[ "X-User-Id" := h ]}; req_query := ∅ |}.

(** * Properties *)

(** ** Collections *)

Lemma collection_set_eq name c w :
  collection (set_collection name c w) name = c.
Proof. unfold collection, set_collection; simpl. by rewrite lookup_insert_eq. Qed.

Lemma collection_set_ne name name' c w :
  name ≠ name' → collection (set_collection name c w) name' = collection w name'.
Proof. intros. unfold collection, set_collection; simpl. by rewrite lookup_insert_ne. Qed.

Lemma set_collection_id name w :
  is_Some (db w !! name) → set_collection name (collection w name) w = w.
Proof.
  intros [c Hc]. destruct w as [m u]; unfold set_collection, collection in *; simpl in *.
  rewrite Hc; simpl. by rewrite insert_id.
Qed.

Lemma uploads_set_collection name c w : uploads (set_collection name c w) = uploads w.
Proof. done. Qed.

(** ** Finding and updating the first match *)

Lemma find_Some_split (q : query) c e :
  find (matches q) c = Some e →
  ∃ l1 l2, c = l1 ++ e :: l2 ∧ matches q e = true ∧ Forall (λ d, matches q d = false) l1.
Proof.
  induction c as [|d c IH]; simpl; [done|].
  destruct (matches q d) eqn:Hd.
  - intros [= ->]. by exists [], c.
  - intros (l1 & l2 & -> & ? & ?)%IH. exists (d :: l1), l2. eauto.
Qed.

Lemma find_None_Forall (q : query) c :
  find (matches q) c = None → Forall (λ d, matches q d = false) c.
Proof.
  induction c as [|d c IH]; simpl; [constructor|].
  destruct (matches q d) eqn:Hd; [done|]. auto.
Qed.

Lemma find_app_skip (q : query) l1 l2 :
  Forall (λ d, matches q d = false) l1 → find (matches q) (l1 ++ l2) = find (matches q) l2.
Proof. induction 1 as [|d l1 Hd _ IH]; simpl; [done|]. by rewrite Hd. Qed.

Lemma update_first_split q u l1 e l2 :
  Forall (λ d, matches q d = false) l1 → matches q e = true →
  update_first q u (l1 ++ e :: l2) = l1 ++ apply_set u e :: l2.
Proof.
  intros Hl1 He. induction Hl1 as [|d l1 Hd _ IH]; simpl.
  - by rewrite He.
  - by rewrite Hd, IH.
Qed.

Lemma update_first_none q u c :
  Forall (λ d, matches q d = false) c → update_first q u c = c.
Proof. induction 1 as [|d c Hd _ IH]; simpl; [done|]. by rewrite Hd, IH. Qed.

(** Every position holds afterwards what it held before, or that with the
    update applied. *)
Lemma update_first_lookup q u c i d :
  c !! i = Some d →
  ∃ d', update_first q u c !! i = Some d' ∧ (d' = d ∨ d' = apply_set u d).
Proof.
  revert i. induction c as [|x c IH]; intros i; [done|]. simpl.
  destruct (matches q x).
  - destruct i; simpl; [intros [= ->]|]; eauto.
  - destruct i; simpl; [intros [= ->]|]; eauto.
Qed.

Lemma update_first_length q u c : length (update_first q u c) = length c.
Proof. induction c as [|x c IH]; simpl; [done|]. destruct (matches q x); simpl; auto. Qed.

Lemma ids_before_differ (l1 l2 : list document) e :
  NoDup (doc_id <$> (l1 ++ e :: l2)) →
  Forall (λ d, matches (IdEq (doc_id e)) d = false) l1.
Proof.
  rewrite fmap_app, fmap_cons. intros Hnd.
  apply NoDup_app in Hnd as (_ & Hdis & _).
  apply Forall_forall. intros d Hd. simpl. apply bool_decide_eq_false.
  intros Heq. apply (Hdis (doc_id d)).
  - apply list_elem_of_fmap. eauto.
  - rewrite Heq. left.
Qed.

(** With identifiers unique in the collection, updating by the [_id] of a
    stored document updates that very document. *)
Lemma update_by_id u l1 e l2 :
  NoDup (doc_id <$> (l1 ++ e :: l2)) →
  update_first (IdEq (doc_id e)) u (l1 ++ e :: l2) = l1 ++ apply_set u e :: l2.
Proof.
  intros Hnd. apply update_first_split; [by eapply ids_before_differ|].
  simpl. by apply bool_decide_eq_true.
Qed.

Lemma apply_set_id u d : doc_id (apply_set u d) = doc_id d.
Proof. done. Qed.

Lemma apply_set_lookup_set u d k v :
  u !! k = Some v → doc_fields (apply_set u d) !! k = Some v.
Proof. intros. simpl. by apply lookup_union_Some_l. Qed.

Lemma apply_set_lookup_keep u d k :
  u !! k = None → doc_fields (apply_set u d) !! k = doc_fields d !! k.
Proof. intros. simpl. by apply lookup_union_r. Qed.

(** ** Identifier generation *)

Lemma new_object_id_fresh c : new_object_id c ∉ doc_id <$> c.
Proof.
  unfold new_object_id. intros Hin. apply list_elem_of_fmap in Hin as (d & Hid & Hd).
  eapply (fresh_string_of_set_fresh (list_to_set (object_ids c)) "oid").
  apply elem_of_list_to_set. unfold object_ids. apply list_elem_of_omap.
  exists d. split; [done|]. by rewrite <- Hid.
Qed.

Lemma insert_keeps_ids_unique c fields :
  NoDup (doc_id <$> c) → NoDup (doc_id <$> (c ++ [Doc (new_object_id c) fields])).
Proof.
  intros Hnd. rewrite fmap_app. apply NoDup_app. split_and!; [done| |].
  - intros i Hi Hin. simpl in Hin. apply list_elem_of_singleton in Hin as ->.
    by apply new_object_id_fresh in Hi.
  - simpl. apply NoDup_singleton.
Qed.

(** ** Running the handlers *)

Ltac run_M :=
  unfold mbind, M_bind, mret, M_ret, raise, create_document, insert_one,
    find_one, update_one, get_documents; simpl.

Lemma truthy_Some_inv o : truthy o = true → ∃ u, o = Some u ∧ u ≠ "".
Proof. destruct o as [[|c u]|]; simpl; try done. intros _. by eexists. Qed.

(** What [create_document] does to the world. *)
Lemma create_document_run name data w :
  create_document name data w =
    (Return (str_ident (new_object_id (collection w name))),
     set_collection name
       (collection w name ++ [Doc (new_object_id (collection w name)) data]) w).
Proof. reflexivity. Qed.

(** ** Subjects *)

Lemma create_subject_missing subject user_id w :
  truthy (resolved user_id (Subject.user_id subject)) = false →
  create_subject subject user_id w = (Raise missing_user_id, w).
Proof.
  unfold resolved, create_subject. intros Hr.
  destruct (truthy user_id) eqn:Hh; cbn [negb]; cbv zeta; by rewrite Hr.
Qed.

Lemma create_subject_run subject user_id u w :
  resolved user_id (Subject.user_id subject) = Some u → u ≠ "" →
  create_subject subject user_id w =
    (Return {[ "id" := VStr (str_ident (new_object_id (collection w "subject"))) ]},
     set_collection "subject"
       (collection w "subject" ++
          [Doc (new_object_id (collection w "subject"))
               (<["user_id" := VStr u]> (Subject.model_dump subject))]) w).
Proof.
  unfold resolved, create_subject. intros Hr Hu.
  destruct (truthy user_id) eqn:Hh; cbn [negb]; cbv zeta.
  - rewrite Hh. subst user_id. reflexivity.
  - injection Hr as ->. destruct u; [done|]. reflexivity.
Qed.

(** C5: what [GET /api/subjects] returns for user id [u] are documents
    whose [user_id] is [u]; a stored subject of another user is not among
    them. The call leaves the world as it was. *)
Theorem list_subjects_only_own (user_id : option string) (w w' : world) (items : list dict) :
  list_subjects user_id w = (Return items, w') →
  ∃ u, user_id = Some u ∧ w' = w ∧
    (∀ m, m ∈ items → m !! "user_id" = Some (VStr u)) ∧
    (∀ d, d ∈ collection w "subject" →
          doc_fields d !! "user_id" ≠ Some (VStr u) → doc_view d ∉ items).
Proof.
  unfold list_subjects. destruct (truthy user_id) eqn:Hh; cbn [negb]; [|done].
  apply truthy_Some_inv in Hh as (u & -> & _). run_M. intros [= <- <-].
  exists u. split_and!; [done|done| |].
  - intros m Hm. apply list_elem_of_fmap in Hm. destruct Hm as (d & -> & Hd).
    apply list_elem_of_filter in Hd as [Hm _]. rewrite andb_true_r in Hm.
    apply bool_decide_eq_true in Hm. unfold doc_view. by rewrite lookup_insert_ne.
  - intros d _ Hne Hin. apply list_elem_of_fmap in Hin. destruct Hin as (d' & Heq & Hd').
    apply list_elem_of_filter in Hd' as [Hm _]. rewrite andb_true_r in Hm.
    apply bool_decide_eq_true in Hm. apply Hne.
    assert (doc_view d !! "user_id" = doc_view d' !! "user_id") as Hl by by rewrite Heq.
    unfold doc_view in Hl. rewrite !lookup_insert_ne in Hl by done. congruence.
Qed.

Lemma list_subjects_only_own_witness :
  list_subjects (Some "u1") two_subjects
    = (Return [doc_view (Doc (ObjectId "a1")
                 (Subject.model_dump (Subject.Make "u1" "Chemistry" None)))],
       two_subjects) ∧
  ∃ u, Some "u1" = Some u ∧ two_subjects = two_subjects ∧
    (∀ m, m ∈ [doc_view (Doc (ObjectId "a1")
                 (Subject.model_dump (Subject.Make "u1" "Chemistry" None)))] →
          m !! "user_id" = Some (VStr u)) ∧
    (∀ d, d ∈ collection two_subjects "subject" →
          doc_fields d !! "user_id" ≠ Some (VStr u) →
          doc_view d ∉ [doc_view (Doc (ObjectId "a1")
                 (Subject.model_dump (Subject.Make "u1" "Chemistry" None)))]).
Proof.
  split; [reflexivity|].
  apply (list_subjects_only_own (Some "u1") two_subjects two_subjects). reflexivity.
Defined.

(** ** Book upload *)

(** What an accepted upload does: the file is written under the upload
    directory, then one Book record is created. *)
Lemma upload_book_run user_id subject_id filename content uuid4 w :
  endswith (lower filename) ".pdf" = true →
  plain_name filename = true →
  let fpath := path_join UPLOAD_DIR (uuid4 +:+ "-" +:+ filename) in
  let c := collection w "book" in
  upload_book user_id subject_id filename content uuid4 w =
    (Return (<["id" := VStr (str_ident (new_object_id c))]> {[ "file_path" := VStr fpath ]}),
     set_collection "book"
       (c ++ [Doc (new_object_id c)
                (Book.model_dump
                   (Book.Make user_id subject_id (replace filename ".pdf" "")
                      (Some filename) (Some fpath) None None))])
       (put_file fpath content w)).
Proof.
  intros Hpdf Hplain. unfold upload_book, write_file. rewrite Hpdf.
  apply andb_true_iff in Hplain as [Hnul Hsep].
  apply negb_true_iff in Hnul, Hsep. cbn [negb]. rewrite Hnul, Hsep. reflexivity.
Qed.

(** An accepted name that is not plain stops at [open]: what it raises is
    the call's answer, and nothing is written. *)
Lemma upload_book_open_fails user_id subject_id filename content uuid4 w :
  endswith (lower filename) ".pdf" = true →
  plain_name filename = false →
  ∃ e, upload_book user_id subject_id filename content uuid4 w = (Raise e, w).
Proof.
  intros Hpdf Hplain. unfold upload_book, write_file. rewrite Hpdf. cbn [negb].
  destruct (occurs NUL filename) eqn:Hnul; [by eexists|].
  destruct (occurs "/" filename) eqn:Hsep; [by eexists|].
  unfold plain_name in Hplain. by rewrite Hnul, Hsep in Hplain.
Qed.

(** C7, as the code has it: an upload whose file name, lowercased, does
    not end in ".pdf" is answered with 400, and the world is left as it
    was: no file is written and no Book record is created. *)
Theorem upload_book_rejects_non_pdf (user_id subject_id filename : string)
    (content : list Byte.byte) (uuid4 : string) (w : world) :
  endswith (lower filename) ".pdf" = false →
  upload_book user_id subject_id filename content uuid4 w
    = (Raise (HTTPException 400 "Only PDF files are supported"), w).
Proof. intros Hpdf. unfold upload_book. rewrite Hpdf. reflexivity. Qed.

Lemma upload_book_rejects_non_pdf_witness :
  endswith (lower "notes.txt") ".pdf" = false ∧
  upload_book "u1" "s1" "notes.txt" [] "b1" empty_world
    = (Raise (HTTPException 400 "Only PDF files are supported"), empty_world).
Proof.
  split; [reflexivity|].
  apply (upload_book_rejects_non_pdf "u1" "s1" "notes.txt" [] "b1" empty_world).
  reflexivity.
Defined.

(** C7 as stated fails: "NOTES.PDF" does not end in ".pdf", yet the upload
    is accepted, the file is written and a Book record is created. *)
Lemma upload_book_accepts_uppercase_suffix :
  endswith "NOTES.PDF" ".pdf" = false ∧
  (upload_book "u1" "s1" "NOTES.PDF" [] "b1" empty_world).1
    = Return (<["id" := VStr "oid"]> {[ "file_path" := VStr "uploads/b1-NOTES.PDF" ]}) ∧
  uploads (upload_book "u1" "s1" "NOTES.PDF" [] "b1" empty_world).2
    !! "uploads/b1-NOTES.PDF" = Some [] ∧
  length (collection (upload_book "u1" "s1" "NOTES.PDF" [] "b1" empty_world).2 "book") = 1%nat.
Proof. vm_compute. auto. Qed.

(** C8: uploading "notes.pdf" for user "u1" and subject "s1" adds exactly
    one record to the book collection, with title "notes", user_id "u1",
    subject_id "s1" and [pages], [num_pages] null; the record's identifier
    is new, it is the one the response reports, and no other collection
    changes. *)
Theorem upload_notes_pdf (content : list Byte.byte) (uuid4 : string) (w : world) :
  let r := upload_book "u1" "s1" "notes.pdf" content uuid4 w in
  ∃ d,
    collection r.2 "book" = collection w "book" ++ [d] ∧
    (doc_id d ∉ doc_id <$> collection w "book") ∧
    doc_fields d !! "title" = Some (VStr "notes") ∧
    doc_fields d !! "user_id" = Some (VStr "u1") ∧
    doc_fields d !! "subject_id" = Some (VStr "s1") ∧
    doc_fields d !! "pages" = Some VNone ∧
    doc_fields d !! "num_pages" = Some VNone ∧
    r.1 = Return (<["id" := VStr (str_ident (doc_id d))]>
                  {[ "file_path" := VStr (path_join UPLOAD_DIR (uuid4 +:+ "-notes.pdf")) ]}) ∧
    ∀ name, name ≠ "book" → collection r.2 name = collection w name.
Proof.
  intros r. subst r. rewrite upload_book_run by reflexivity. cbv zeta.
  eexists. split; [apply collection_set_eq|]. simpl.
  split_and!; try reflexivity.
  - apply new_object_id_fresh.
  - intros name Hne. by rewrite collection_set_ne.
Qed.

(** ** Lessons *)

Lemma request_lesson_run req user_id u w :
  resolved user_id (LessonRequest.user_id req) = Some u → u ≠ "" →
  let c := collection w "lesson" in
  request_lesson req user_id w =
    (Return (<["id" := VStr (str_ident (new_object_id c))]> {[ "status" := VStr "queued" ]}),
     set_collection "lesson"
       (c ++ [Doc (new_object_id c)
                (Lesson.model_dump
                   (Lesson.Make u (LessonRequest.subject_id req) (LessonRequest.book_id req)
                      None (LessonRequest.prompt req) Lesson.pending
                      None None None None None))]) w).
Proof.
  unfold resolved, request_lesson. intros Hr Hu.
  destruct (truthy user_id) eqn:Hh; cbn [negb]; cbv zeta.
  - subst user_id. destruct u; [done|]. reflexivity.
  - injection Hr as ->. destruct u; [done|]. reflexivity.
Qed.

(** C9: a [POST /api/lessons] request with a resolvable user id adds
    exactly one record to the lesson collection, whose status is "pending";
    the response reports status "queued" and the new record's identifier;
    nothing else changes. *)
Theorem request_lesson_queues (req : LessonRequest.t) (user_id : option string) (w : world) :
  truthy (resolved user_id (LessonRequest.user_id req)) = true →
  let r := request_lesson req user_id w in
  ∃ d,
    collection r.2 "lesson" = collection w "lesson" ++ [d] ∧
    (doc_id d ∉ doc_id <$> collection w "lesson") ∧
    doc_fields d !! "status" = Some (VStr "pending") ∧
    r.1 = Return (<["id" := VStr (str_ident (doc_id d))]> {[ "status" := VStr "queued" ]}) ∧
    uploads r.2 = uploads w ∧
    ∀ name, name ≠ "lesson" → collection r.2 name = collection w name.
Proof.
  intros Hr r. subst r. apply truthy_Some_inv in Hr as (u & Hr & Hu).
  rewrite (request_lesson_run _ _ u) by done. cbv zeta.
  eexists. split; [apply collection_set_eq|]. simpl.
  split_and!; try reflexivity.
  - apply new_object_id_fresh.
  - intros name Hne. by rewrite collection_set_ne.
Qed.

Lemma request_lesson_queues_witness :
  truthy (resolved None (LessonRequest.user_id a_request)) = true ∧
  ∃ d,
    collection (request_lesson a_request None empty_world).2 "lesson"
      = collection empty_world "lesson" ++ [d] ∧
    (doc_id d ∉ doc_id <$> collection empty_world "lesson") ∧
    doc_fields d !! "status" = Some (VStr "pending") ∧
    (request_lesson a_request None empty_world).1
      = Return (<["id" := VStr (str_ident (doc_id d))]> {[ "status" := VStr "queued" ]}) ∧
    uploads (request_lesson a_request None empty_world).2 = uploads empty_world ∧
    ∀ name, name ≠ "lesson" →
      collection (request_lesson a_request None empty_world).2 name
        = collection empty_world name.
Proof.
  split; [reflexivity|].
  apply (request_lesson_queues a_request None empty_world). reflexivity.
Defined.

(** ** Progress *)

Lemma matches_progress_query u b d :
  matches (progress_query u b) d = true ↔
  doc_fields d !! "user_id" = Some (VStr u) ∧ doc_fields d !! "book_id" = Some (VStr b).
Proof.
  simpl. rewrite andb_true_r, andb_true_iff, !bool_decide_eq_true. done.
Qed.

Lemma upsert_progress_missing progress user_id now w :
  truthy (resolved user_id (Progress.user_id progress)) = false →
  upsert_progress progress user_id now w = (Raise missing_user_id, w).
Proof.
  unfold resolved, upsert_progress. intros Hr.
  destruct (truthy user_id) eqn:Hh; cbn [negb]; cbv zeta; by rewrite Hr.
Qed.

(** The update branch: a record for (user, book) exists. *)
Lemma upsert_progress_existing progress user_id u now w e :
  resolved user_id (Progress.user_id progress) = Some u → u ≠ "" →
  find (matches (progress_query u (Progress.book_id progress))) (collection w "progress")
    = Some e →
  upsert_progress progress user_id now w =
    (Return {[ "id" := VStr (str_ident (doc_id e)) ]},
     set_collection "progress"
       (update_first (IdEq (doc_id e))
          (<["updated_at" := VDatetime now]> (progress_payload u progress))
          (collection w "progress")) w).
Proof.
  unfold resolved, upsert_progress. intros Hr Hu Hf.
  assert (truthy (Some u) = true) as Ht by by destruct u.
  destruct (truthy user_id) eqn:Hh; cbn [negb]; cbv zeta.
  - subst user_id. rewrite Ht. cbn [negb]. run_M.
    unfold progress_query in Hf. simpl in Hf. by rewrite Hf.
  - injection Hr as ->. rewrite Ht. cbn [negb]. run_M.
    unfold progress_query in Hf. simpl in Hf. by rewrite Hf.
Qed.

(** The insert branch: no record for (user, book) exists. *)
Lemma upsert_progress_absent progress user_id u now w :
  resolved user_id (Progress.user_id progress) = Some u → u ≠ "" →
  find (matches (progress_query u (Progress.book_id progress))) (collection w "progress")
    = None →
  let c := collection w "progress" in
  upsert_progress progress user_id now w =
    (Return {[ "id" := VStr (str_ident (new_object_id c)) ]},
     set_collection "progress" (c ++ [Doc (new_object_id c) (progress_payload u progress)]) w).
Proof.
  unfold resolved, upsert_progress. intros Hr Hu Hf.
  assert (truthy (Some u) = true) as Ht by by destruct u.
  destruct (truthy user_id) eqn:Hh; cbn [negb]; cbv zeta.
  - subst user_id. rewrite Ht. cbn [negb]. run_M.
    unfold progress_query in Hf. simpl in Hf. by rewrite Hf.
  - injection Hr as ->. rewrite Ht. cbn [negb]. run_M.
    unfold progress_query in Hf. simpl in Hf. by rewrite Hf.
Qed.

Lemma find_elem_of (q : query) c e :
  e ∈ c → matches q e = true → is_Some (find (matches q) c).
Proof.
  induction 1 as [e c|e d c _ IH]; simpl; intros He.
  - rewrite He. eauto.
  - destruct (matches q d); eauto.
Qed.

(** An update addressed to a stored document's [_id] rewrites one stored
    document (the first one carrying that identifier) in place. *)
Lemma update_first_by_stored_id u c e :
  e ∈ c →
  ∃ l1 t l2, c = l1 ++ t :: l2 ∧ doc_id t = doc_id e ∧
    update_first (IdEq (doc_id e)) u c = l1 ++ apply_set u t :: l2.
Proof.
  intros He.
  destruct (find_elem_of (IdEq (doc_id e)) c e He) as [t Ht].
  { simpl. by apply bool_decide_eq_true. }
  apply find_Some_split in Ht as (l1 & l2 & -> & Hm & Hl1).
  exists l1, t, l2. split_and!; [done| |by apply update_first_split].
  simpl in Hm. by apply bool_decide_eq_true in Hm.
Qed.

Lemma find_Some_elem_of (q : query) c e : find (matches q) c = Some e → e ∈ c.
Proof.
  intros (l1 & l2 & -> & _)%find_Some_split. apply elem_of_app. right. left.
Qed.

Lemma find_head_filter (q : query) c :
  find (matches q) c = head (filter (λ d, matches q d = true) c).
Proof.
  induction c as [|d c IH]; [done|]. simpl. rewrite filter_cons.
  destruct (matches q d) eqn:Hd.
  - by rewrite decide_True.
  - by rewrite decide_False.
Qed.

Lemma filter_none_Forall (q : query) c :
  Forall (λ d, matches q d = false) c → filter (λ d, matches q d = true) c = [].
Proof.
  induction 1 as [|d c Hd _ IH]; [done|].
  rewrite filter_cons_False; [done|]. by rewrite Hd.
Qed.

Lemma payload_user_id u p : progress_payload u p !! "user_id" = Some (VStr u).
Proof. unfold progress_payload. by rewrite lookup_insert_eq. Qed.

Lemma payload_book_id u p :
  progress_payload u p !! "book_id" = Some (VStr (Progress.book_id p)).
Proof. reflexivity. Qed.

Lemma payload_matches_key u p i :
  matches (progress_query u (Progress.book_id p)) (Doc i (progress_payload u p)) = true.
Proof. apply matches_progress_query. simpl. by rewrite payload_user_id, payload_book_id. Qed.

Lemma stamped_payload_matches_key u p now e :
  matches (progress_query u (Progress.book_id p))
    (apply_set (<["updated_at" := VDatetime now]> (progress_payload u p)) e) = true.
Proof.
  apply matches_progress_query. split; apply apply_set_lookup_set;
    (rewrite lookup_insert_ne by done); [apply payload_user_id|apply payload_book_id].
Qed.

(** One call that finds the single record of its key: the record is
    rewritten in place, its identifier is returned, and nothing is added. *)
Lemma upsert_progress_step_update progress user_id u now w e0 :
  resolved user_id (Progress.user_id progress) = Some u → u ≠ "" →
  NoDup (doc_id <$> collection w "progress") →
  records_for u (Progress.book_id progress) (collection w "progress") = [e0] →
  let r := upsert_progress progress user_id now w in
  let e := apply_set (<["updated_at" := VDatetime now]> (progress_payload u progress)) e0 in
  r.1 = Return {[ "id" := VStr (str_ident (doc_id e0)) ]} ∧
  records_for u (Progress.book_id progress) (collection r.2 "progress") = [e] ∧
  length (collection r.2 "progress") = length (collection w "progress") ∧
  doc_id <$> collection r.2 "progress" = doc_id <$> collection w "progress".
Proof.
  intros Hr Hu Hnd Hrec r e. subst r.
  assert (find (matches (progress_query u (Progress.book_id progress)))
            (collection w "progress") = Some e0) as Hf.
  { rewrite find_head_filter. unfold records_for in Hrec. by rewrite Hrec. }
  rewrite (upsert_progress_existing _ _ u _ _ e0) by done. simpl.
  rewrite collection_set_eq.
  destruct (find_Some_split _ _ _ Hf) as (l1 & l2 & Hc & Hm & Hl1).
  rewrite Hc in Hnd, Hrec |- *. rewrite update_by_id by done.
  unfold records_for in *.
  rewrite filter_app, filter_cons_True, (filter_none_Forall _ l1) in Hrec by done.
  rewrite app_nil_l in Hrec.
  assert (filter (λ d, matches (progress_query u (Progress.book_id progress)) d = true) l2
            = []) as Hl2 by (by injection Hrec).
  split_and!; [done| | |].
  - rewrite filter_app, filter_cons_True, (filter_none_Forall _ l1), Hl2; [done|done|].
    apply stamped_payload_matches_key.
  - by rewrite !length_app.
  - by rewrite !fmap_app.
Qed.

(** One call that finds no record of its key: one record is appended. *)
Lemma upsert_progress_step_insert progress user_id u now w :
  resolved user_id (Progress.user_id progress) = Some u → u ≠ "" →
  NoDup (doc_id <$> collection w "progress") →
  records_for u (Progress.book_id progress) (collection w "progress") = [] →
  let r := upsert_progress progress user_id now w in
  let e := Doc (new_object_id (collection w "progress")) (progress_payload u progress) in
  r.1 = Return {[ "id" := VStr (str_ident (doc_id e)) ]} ∧
  records_for u (Progress.book_id progress) (collection r.2 "progress") = [e] ∧
  collection r.2 "progress" = collection w "progress" ++ [e] ∧
  NoDup (doc_id <$> collection r.2 "progress").
Proof.
  intros Hr Hu Hnd Hrec r e. subst r e.
  assert (find (matches (progress_query u (Progress.book_id progress)))
            (collection w "progress") = None) as Hf.
  { rewrite find_head_filter. unfold records_for in Hrec. by rewrite Hrec. }
  rewrite (upsert_progress_absent _ _ u) by done. simpl.
  rewrite collection_set_eq. split_and!; [done| |done|by apply insert_keeps_ids_unique].
  unfold records_for in *. rewrite filter_app, Hrec. simpl.
  rewrite filter_cons_True by apply payload_matches_key. done.
Qed.

Lemma matches_key_inj u b u' b' d :
  matches (progress_query u b) d = true → matches (progress_query u' b') d = true →
  u' = u ∧ b' = b.
Proof.
  intros [H1 H2]%matches_progress_query [H1' H2']%matches_progress_query.
  split; congruence.
Qed.

(** The invariant of the data model, "at most one Progress record per
    (user_id, book_id)", is kept by every [POST /api/progress] call, as are
    unique identifiers. *)
Lemma upsert_progress_keeps_at_most_one progress user_id now w :
  NoDup (doc_id <$> collection w "progress") →
  (∀ u b, (length (records_for u b (collection w "progress")) ≤ 1)%nat) →
  let w' := (upsert_progress progress user_id now w).2 in
  NoDup (doc_id <$> collection w' "progress") ∧
  ∀ u b, (length (records_for u b (collection w' "progress")) ≤ 1)%nat.
Proof.
  intros Hnd Hone w'. subst w'.
  destruct (truthy (resolved user_id (Progress.user_id progress))) eqn:Ht.
  2:{ by rewrite upsert_progress_missing. }
  apply truthy_Some_inv in Ht as (u & Hr & Hu).
  destruct (find (matches (progress_query u (Progress.book_id progress)))
              (collection w "progress")) as [e0|] eqn:Hf.
  - rewrite (upsert_progress_existing _ _ u _ _ e0) by done. simpl.
    rewrite collection_set_eq.
    destruct (find_Some_split _ _ _ Hf) as (l1 & l2 & Hc & Hm & _).
    rewrite Hc in Hnd |- *. rewrite update_by_id by done. split.
    + by rewrite !fmap_app in Hnd |- *.
    + intros u' b'. specialize (Hone u' b'). rewrite Hc in Hone.
      unfold records_for in *. rewrite filter_app, filter_cons, length_app in Hone |- *.
      destruct (decide (matches (progress_query u' b')
                  (apply_set (<["updated_at" := VDatetime now]> (progress_payload u progress)) e0)
                = true)) as [Hm'|Hm'].
      * destruct (matches_key_inj _ _ _ _ _ (stamped_payload_matches_key u progress now e0) Hm')
          as [-> ->].
        rewrite decide_True in Hone by done. exact Hone.
      * destruct (decide (matches (progress_query u' b') e0 = true));
          cbn [length] in Hone; lia.
  - rewrite (upsert_progress_absent _ _ u) by done. simpl.
    rewrite collection_set_eq. split; [by apply insert_keeps_ids_unique|].
    intros u' b'. specialize (Hone u' b').
    unfold records_for in *. rewrite filter_app, length_app, filter_cons, filter_nil.
    destruct (decide (matches (progress_query u' b')
                (Doc (new_object_id (collection w "progress")) (progress_payload u progress))
              = true)) as [Hm'|Hm']; cbn [length]; [|lia].
    destruct (matches_key_inj _ _ _ _ _ (payload_matches_key u progress _) Hm') as [-> ->].
    rewrite find_head_filter in Hf.
    destruct (filter _ (collection w "progress")); [cbn [length]; lia|done].
Qed.

(** C1, as the code has it: in a world whose progress collection has
    unique identifiers and holds at most one record for the key
    (user, book), two sequential [POST /api/progress] calls for that key
    leave exactly one record for it. The second call finds the record [e]
    left by the first, returns its identifier, adds no record, writes its
    own fields over [e]'s and stamps [updated_at]. *)
Theorem upsert_progress_twice (p1 p2 : Progress.t) (h1 h2 : option string)
    (now1 now2 : Z) (u b : string) (w : world) :
  resolved h1 (Progress.user_id p1) = Some u →
  resolved h2 (Progress.user_id p2) = Some u →
  u ≠ "" →
  Progress.book_id p1 = b →
  Progress.book_id p2 = b →
  NoDup (doc_id <$> collection w "progress") →
  (length (records_for u b (collection w "progress")) ≤ 1)%nat →
  let r1 := upsert_progress p1 h1 now1 w in
  let r2 := upsert_progress p2 h2 now2 r1.2 in
  ∃ e d,
    records_for u b (collection r1.2 "progress") = [e] ∧
    r1.1 = Return {[ "id" := VStr (str_ident (doc_id e)) ]} ∧
    r2.1 = Return {[ "id" := VStr (str_ident (doc_id e)) ]} ∧
    length (collection r2.2 "progress") = length (collection r1.2 "progress") ∧
    records_for u b (collection r2.2 "progress") = [d] ∧
    doc_id d = doc_id e ∧
    (∀ k v, progress_payload u p2 !! k = Some v → doc_fields d !! k = Some v) ∧
    doc_fields d !! "updated_at" = Some (VDatetime now2) ∧
    (∀ k, progress_payload u p2 !! k = None → k ≠ "updated_at" →
          doc_fields d !! k = doc_fields e !! k).
Proof.
  intros Hr1 Hr2 Hu Hb1 Hb2 Hnd Hle r1 r2. subst b.
  assert (∃ e, records_for u (Progress.book_id p1) (collection r1.2 "progress") = [e] ∧
               r1.1 = Return {[ "id" := VStr (str_ident (doc_id e)) ]} ∧
               NoDup (doc_id <$> collection r1.2 "progress")) as (e & Hrec1 & Hret1 & Hnd1).
  { subst r1.
    destruct (records_for u (Progress.book_id p1) (collection w "progress"))
      as [|e0 [|e1 rest]] eqn:Hrec; [| |simpl in Hle; lia].
    - destruct (upsert_progress_step_insert p1 h1 u now1 w Hr1 Hu Hnd Hrec)
        as (Hret & Hrec' & _ & Hnd'). eauto.
    - destruct (upsert_progress_step_update p1 h1 u now1 w e0 Hr1 Hu Hnd Hrec)
        as (Hret & Hrec' & _ & Hids). rewrite Hids. eauto. }
  rewrite <- Hb2 in Hrec1.
  destruct (upsert_progress_step_update p2 h2 u now2 r1.2 e Hr2 Hu Hnd1 Hrec1)
    as (Hret2 & Hrec2 & Hlen2 & _).
  rewrite Hb2 in Hrec1, Hrec2.
  exists e, (apply_set (<["updated_at" := VDatetime now2]> (progress_payload u p2)) e).
  split_and!; try done.
  - intros k v Hk. apply apply_set_lookup_set.
    destruct (decide (k = "updated_at")) as [->|Hne]; [done|].
    by rewrite lookup_insert_ne.
  - apply apply_set_lookup_set. by rewrite lookup_insert_eq.
  - intros k Hk Hne. apply apply_set_lookup_keep. by rewrite lookup_insert_ne.
Qed.

Lemma upsert_progress_twice_witness :
  resolved None (Progress.user_id first_progress) = Some "u1" ∧
  resolved (Some "u1") (Progress.user_id second_progress) = Some "u1" ∧
  "u1" ≠ "" ∧
  Progress.book_id first_progress = "b1" ∧
  Progress.book_id second_progress = "b1" ∧
  NoDup (doc_id <$> collection empty_world "progress") ∧
  (length (records_for "u1" "b1" (collection empty_world "progress")) ≤ 1)%nat ∧
  let r1 := upsert_progress first_progress None 1 empty_world in
  let r2 := upsert_progress second_progress (Some "u1") 2 r1.2 in
  ∃ e d,
    records_for "u1" "b1" (collection r1.2 "progress") = [e] ∧
    r1.1 = Return {[ "id" := VStr (str_ident (doc_id e)) ]} ∧
    r2.1 = Return {[ "id" := VStr (str_ident (doc_id e)) ]} ∧
    length (collection r2.2 "progress") = length (collection r1.2 "progress") ∧
    records_for "u1" "b1" (collection r2.2 "progress") = [d] ∧
    doc_id d = doc_id e ∧
    (∀ k v, progress_payload "u1" second_progress !! k = Some v →
            doc_fields d !! k = Some v) ∧
    doc_fields d !! "updated_at" = Some (VDatetime 2) ∧
    (∀ k, progress_payload "u1" second_progress !! k = None → k ≠ "updated_at" →
          doc_fields d !! k = doc_fields e !! k).
Proof.
  split_and!; [reflexivity|reflexivity|done|reflexivity|reflexivity| | |].
  - apply NoDup_nil_2.
  - vm_compute. lia.
  - apply (upsert_progress_twice first_progress second_progress None (Some "u1")
             1 2 "u1" "b1" empty_world);
      [reflexivity|reflexivity|done|reflexivity|reflexivity|apply NoDup_nil_2|vm_compute; lia].
Defined.

(** C1 as stated fails: from a world with two records for the key, both
    are still there after two calls. *)
Lemma upsert_progress_twice_keeps_duplicates :
  length
    (records_for "u1" "b1"
       (collection
          (upsert_progress second_progress (Some "u1") 2
             (upsert_progress first_progress (Some "u1") 1 duplicated_progress).2).2
          "progress")) = 2%nat.
Proof. vm_compute. reflexivity. Qed.

(** ** The user id, from the request in *)

Lemma post_api_subjects_valid req body subject :
  SubjectBody.validate body = Return subject →
  post_api_subjects req body = create_subject subject (current_user_id req).
Proof. intros Hv. unfold post_api_subjects. by rewrite Hv. Qed.




(** The document written carries the resolved user id. *)
Lemma resolved_user_id_is_stored subject progress user_id now w :
  (∀ u, resolved user_id (Subject.user_id subject) = Some u → u ≠ "" →
     ∃ d, collection (create_subject subject user_id w).2 "subject"
            = collection w "subject" ++ [d] ∧
          doc_fields d !! "user_id" = Some (VStr u)) ∧
  (∀ u, resolved user_id (Progress.user_id progress) = Some u → u ≠ "" →
     let c := collection w "progress" in
     let c' := collection (upsert_progress progress user_id now w).2 "progress" in
     (∃ d, c' = c ++ [d] ∧ doc_fields d !! "user_id" = Some (VStr u)) ∨
     (∃ l1 d0 d l2, c = l1 ++ d0 :: l2 ∧ c' = l1 ++ d :: l2 ∧
        doc_id d = doc_id d0 ∧ doc_fields d !! "user_id" = Some (VStr u))).
Proof.
  split; intros u Hr Hu.
  - rewrite (create_subject_run _ _ u) by done. simpl.
    eexists. split; [apply collection_set_eq|]. simpl. by rewrite lookup_insert_eq.
  - cbv zeta.
    destruct (find (matches (progress_query u (Progress.book_id progress)))
                (collection w "progress")) as [e|] eqn:Hf.
    + right. rewrite (upsert_progress_existing _ _ u _ _ e) by done. simpl.
      rewrite collection_set_eq.
      destruct (update_first_by_stored_id
                  (<["updated_at" := VDatetime now]> (progress_payload u progress))
                  (collection w "progress") e) as (l1 & t & l2 & Hc & Hid & Hup).
      { by eapply find_Some_elem_of. }
      exists l1, t,
        (apply_set (<["updated_at" := VDatetime now]> (progress_payload u progress)) t), l2.
      split_and!; [done|done|done|].
      apply apply_set_lookup_set. rewrite lookup_insert_ne by done. apply payload_user_id.
    + left. rewrite (upsert_progress_absent _ _ u) by done. simpl.
      rewrite collection_set_eq. eexists. split; [done|]. apply payload_user_id.
Qed.

(** C10, what the code does: the [X-User-Id] header of a request is not
    read. For a request that carries the header with any value [h] and no
    query string, and whose body has a non-empty [user_id], the document
    [POST /api/subjects] and [POST /api/progress] write carries the body's
    [user_id], not [h]. *)
Theorem header_is_not_read (h : string) (body : SubjectBody.t) (subject : Subject.t)
    (progress : Progress.t) (now : Z) (w : world) :
  SubjectBody.validate body = Return subject →
  Subject.user_id subject ≠ "" →
  Progress.user_id progress ≠ "" →
  (∃ d, collection (post_api_subjects (with_header h) body w).2 "subject"
          = collection w "subject" ++ [d] ∧
        doc_fields d !! "user_id" = Some (VStr (Subject.user_id subject))) ∧
  (let c := collection w "progress" in
   let c' := collection (post_api_progress (with_header h) progress now w).2 "progress" in
   (∃ d, c' = c ++ [d] ∧
         doc_fields d !! "user_id" = Some (VStr (Progress.user_id progress))) ∨
   (∃ l1 d0 d l2, c = l1 ++ d0 :: l2 ∧ c' = l1 ++ d :: l2 ∧
      doc_id d = doc_id d0 ∧
      doc_fields d !! "user_id" = Some (VStr (Progress.user_id progress)))).
Proof.
  intros Hv Hs Hp.
  destruct (resolved_user_id_is_stored subject progress (current_user_id (with_header h)) now w)
    as [Hsub Hprog].
  split.
  - rewrite (post_api_subjects_valid _ _ subject) by done. by apply Hsub.
  - by apply Hprog.
Qed.

Lemma header_is_not_read_witness :
  SubjectBody.validate (SubjectBody.Make (Some "body-user") (Some "Chemistry") None)
    = Return (Subject.Make "body-user" "Chemistry" None) ∧
  Subject.user_id (Subject.Make "body-user" "Chemistry" None) ≠ "" ∧
  Progress.user_id a_progress ≠ "" ∧
  (∃ d, collection (post_api_subjects (with_header "u1")
                      (SubjectBody.Make (Some "body-user") (Some "Chemistry") None)
                      empty_world).2 "subject"
          = collection empty_world "subject" ++ [d] ∧
        doc_fields d !! "user_id"
          = Some (VStr (Subject.user_id (Subject.Make "body-user" "Chemistry" None)))) ∧
  (let c := collection empty_world "progress" in
   let c' := collection (post_api_progress (with_header "u1") a_progress 7 empty_world).2
               "progress" in
   (∃ d, c' = c ++ [d] ∧
         doc_fields d !! "user_id" = Some (VStr (Progress.user_id a_progress))) ∨
   (∃ l1 d0 d l2, c = l1 ++ d0 :: l2 ∧ c' = l1 ++ d :: l2 ∧
      doc_id d = doc_id d0 ∧
      doc_fields d !! "user_id" = Some (VStr (Progress.user_id a_progress)))).
Proof.
  split; [reflexivity|]. split; [done|]. split; [done|].
  apply (header_is_not_read "u1"
           (SubjectBody.Make (Some "body-user") (Some "Chemistry") None)
           (Subject.Make "body-user" "Chemistry" None) a_progress 7 empty_world);
    [reflexivity|done|done].
Defined.

(** ** Patching a lesson *)

Lemma patch_lesson_run to_bson lesson_id status input_excerpt explanation analogies error now w :
  patch_lesson to_bson lesson_id status input_excerpt explanation analogies error now w =
    match located to_bson lesson_id (collection w "lesson") with
    | Raise e => (Raise e, w)
    | Return None => (Raise none_not_subscriptable, w)
    | Return (Some d) =>
        (Return {[ "ok" := VBool true ]},
         set_collection "lesson"
           (update_first (IdEq (doc_id d))
              (patch_updates status input_excerpt explanation analogies error now)
              (collection w "lesson")) w)
    end.
Proof.
  unfold patch_lesson, located. run_M.
  destruct (to_bson lesson_id) as [native|e]; [|done].
  destruct (find _ (collection w "lesson")) as [d|]; simpl; [done|].
  by destruct (find _ (collection w "lesson")) as [d|].
Qed.

Lemma patch_updates_lookup status input_excerpt explanation analogies error now k :
  patch_updates status input_excerpt explanation analogies error now !! k =
    if decide (k = "status") then VStr <$> status
    else if decide (k = "input_excerpt") then VStr <$> input_excerpt
    else if decide (k = "explanation") then VStr <$> explanation
    else if decide (k = "analogies") then VStrList <$> analogies
    else if decide (k = "error") then VStr <$> error
    else if decide (k = "updated_at") then Some (VDatetime now)
    else None.
Proof.
  unfold patch_updates, not_none.
  destruct status, input_excerpt, explanation, analogies, error; simpl;
    repeat case_decide; subst; simplify_map_eq; done.
Qed.

Lemma patch_updates_absent status input_excerpt explanation analogies error now k :
  k ∉ ["status"; "input_excerpt"; "explanation"; "analogies"; "error"; "updated_at"] →
  patch_updates status input_excerpt explanation analogies error now !! k = None.
Proof.
  intros Hk. rewrite patch_updates_lookup.
  repeat case_decide; subst; try done; exfalso; apply Hk; set_solver.
Qed.

(** C2: a [PATCH /api/lessons/{lesson_id}] call leaves every stored lesson
    record in its place, under its identifier, and each of [status],
    [input_excerpt], [explanation], [analogies], [error] that the call
    does not provide keeps the value the record had; so does every field
    other than these five and [updated_at]. The record is either left as
    it was or has exactly the provided fields (and [updated_at]) set. *)
Theorem patch_lesson_sparse (to_bson : string → outcome ident) (lesson_id : string)
    (status input_excerpt explanation : option string)
    (analogies : option (list string)) (error : option string) (now : Z)
    (w : world) (i : nat) (d : document) :
  collection w "lesson" !! i = Some d →
  let r := patch_lesson to_bson lesson_id status input_excerpt explanation analogies error now w in
  ∃ d',
    collection r.2 "lesson" !! i = Some d' ∧
    doc_id d' = doc_id d ∧
    (status = None → doc_fields d' !! "status" = doc_fields d !! "status") ∧
    (input_excerpt = None →
       doc_fields d' !! "input_excerpt" = doc_fields d !! "input_excerpt") ∧
    (explanation = None → doc_fields d' !! "explanation" = doc_fields d !! "explanation") ∧
    (analogies = None → doc_fields d' !! "analogies" = doc_fields d !! "analogies") ∧
    (error = None → doc_fields d' !! "error" = doc_fields d !! "error") ∧
    (∀ k, k ∉ ["status"; "input_excerpt"; "explanation"; "analogies"; "error"; "updated_at"] →
          doc_fields d' !! k = doc_fields d !! k) ∧
    (d' = d ∨
     d' = apply_set (patch_updates status input_excerpt explanation analogies error now) d).
Proof.
  intros Hd r. subst r. rewrite patch_lesson_run.
  destruct (located to_bson lesson_id (collection w "lesson")) as [[t|]|e]; simpl.
  - rewrite collection_set_eq.
    destruct (update_first_lookup (IdEq (doc_id t))
                (patch_updates status input_excerpt explanation analogies error now)
                _ _ _ Hd) as (d' & Hd' & [->| ->]).
    + exists d. split_and!; auto.
    + eexists. split; [exact Hd'|].
      split_and!; [done| | | | | | |by right];
        try (intros ->; apply apply_set_lookup_keep; by rewrite patch_updates_lookup).
      intros k Hk. apply apply_set_lookup_keep. by apply patch_updates_absent.
  - exists d. split_and!; auto.
  - exists d. split_and!; auto.
Qed.

Lemma patch_lesson_sparse_witness :
  collection one_lesson "lesson" !! 0%nat = Some (Doc (ObjectId "a1") explained_lesson) ∧
  let r := patch_lesson any_object_id "a1" (Some "complete") None None None None 9 one_lesson in
  ∃ d',
    collection r.2 "lesson" !! 0%nat = Some d' ∧
    doc_id d' = ObjectId "a1" ∧
    (Some "complete" = None → doc_fields d' !! "status" = explained_lesson !! "status") ∧
    (None = None :> option string →
       doc_fields d' !! "input_excerpt" = explained_lesson !! "input_excerpt") ∧
    (None = None :> option string →
       doc_fields d' !! "explanation" = explained_lesson !! "explanation") ∧
    (None = None :> option (list string) →
       doc_fields d' !! "analogies" = explained_lesson !! "analogies") ∧
    (None = None :> option string → doc_fields d' !! "error" = explained_lesson !! "error") ∧
    (∀ k, k ∉ ["status"; "input_excerpt"; "explanation"; "analogies"; "error"; "updated_at"] →
          doc_fields d' !! k = explained_lesson !! k) ∧
    (d' = Doc (ObjectId "a1") explained_lesson ∨
     d' = apply_set (patch_updates (Some "complete") None None None None 9)
            (Doc (ObjectId "a1") explained_lesson)).
Proof.
  split; [reflexivity|].
  apply (patch_lesson_sparse any_object_id "a1" (Some "complete") None None None None 9
           one_lesson 0 (Doc (ObjectId "a1") explained_lesson)).
  reflexivity.
Defined.

(** The scenario of the claim: a patch carrying only [status = "complete"]
    after one that set [explanation] and [analogies]. *)
Example patch_status_only_keeps_explanation :
  let r := patch_lesson any_object_id "a1" (Some "complete") None None None None 9 one_lesson in
  r.1 = Return {[ "ok" := VBool true ]} ∧
  ∃ d', collection r.2 "lesson" = [d'] ∧
    doc_fields d' !! "status" = Some (VStr "complete") ∧
    doc_fields d' !! "explanation" = Some (VStr "Atoms are like bricks") ∧
    doc_fields d' !! "analogies" = Some (VStrList ["bricks"; "lego"]).
Proof. cbv zeta. split; [reflexivity|]. eexists. split_and!; reflexivity. Qed.

Lemma find_id_None i c :
  Forall (λ d, doc_id d ≠ i) c → find (matches (IdEq i)) c = None.
Proof.
  induction 1 as [|d c' Hd _ IH]; [done|].
  cbn [find matches]. by rewrite bool_decide_eq_false_2.
Qed.

Lemma located_None to_bson lesson_id i c :
  to_bson lesson_id = Return i →
  Forall (λ d, doc_id d ≠ i ∧ doc_id d ≠ StrId lesson_id) c →
  located to_bson lesson_id c = Return None.
Proof.
  intros Hi Hc. unfold located. rewrite Hi.
  rewrite !find_id_None; [done| |]; eapply Forall_impl; try exact Hc; simpl; tauto.
Qed.

(** C3, what the code does: when [lesson_id] resolves to no stored lesson
    record (neither through the identifier [i] the serializer returns for
    it nor as a string), the call does not complete: [doc["_id"]] raises
    [TypeError] on [None]. No record of any collection is modified. *)
Theorem patch_lesson_unresolved_raises (to_bson : string → outcome ident) (lesson_id : string)
    (status input_excerpt explanation : option string)
    (analogies : option (list string)) (error : option string) (now : Z) (w : world)
    (i : ident) :
  to_bson lesson_id = Return i →
  Forall (λ d, doc_id d ≠ i ∧ doc_id d ≠ StrId lesson_id)
    (collection w "lesson") →
  patch_lesson to_bson lesson_id status input_excerpt explanation analogies error now w
    = (Raise (TypeError "'NoneType' object is not subscriptable"), w).
Proof. intros Hi Hc. rewrite patch_lesson_run. by rewrite (located_None _ _ i). Qed.

Lemma patch_lesson_unresolved_raises_witness :
  any_object_id "ffff" = Return (ObjectId "ffff") ∧
  Forall (λ d, doc_id d ≠ ObjectId "ffff" ∧ doc_id d ≠ StrId "ffff")
    (collection one_lesson "lesson") ∧
  patch_lesson any_object_id "ffff" (Some "complete") None None None None 9 one_lesson
    = (Raise (TypeError "'NoneType' object is not subscriptable"), one_lesson).
Proof.
  assert (Forall (λ d, doc_id d ≠ ObjectId "ffff" ∧ doc_id d ≠ StrId "ffff")
            (collection one_lesson "lesson")) as Hc.
  { repeat constructor; simpl; discriminate. }
  split; [reflexivity|]. split; [exact Hc|].
  exact (patch_lesson_unresolved_raises any_object_id "ffff" (Some "complete")
           None None None None 9 one_lesson (ObjectId "ffff") eq_refl Hc).
Defined.




(** * Further properties of the handlers *)

(** ** Requests without a user id *)

(** The three listing handlers answer 401 when the dependency yields no
    user id or an empty one, and read nothing. *)
Theorem read_handlers_reject_missing_user_id (user_id : option string)
    (subject_id book_id : string) (w : world) :
  truthy user_id = false →
  list_subjects user_id w = (Raise (HTTPException 401 "Missing user id"), w) ∧
  list_books subject_id user_id w = (Raise (HTTPException 401 "Missing user id"), w) ∧
  get_progress book_id user_id w = (Raise (HTTPException 401 "Missing user id"), w).
Proof.
  intros Hh. unfold list_subjects, list_books, get_progress. rewrite Hh. done.
Qed.

Lemma read_handlers_reject_missing_user_id_witness :
  truthy (Some "") = false ∧
  list_subjects (Some "") two_subjects
    = (Raise (HTTPException 401 "Missing user id"), two_subjects) ∧
  list_books "s1" (Some "") two_subjects
    = (Raise (HTTPException 401 "Missing user id"), two_subjects) ∧
  get_progress "b1" (Some "") two_subjects
    = (Raise (HTTPException 401 "Missing user id"), two_subjects).
Proof.
  split; [reflexivity|].
  apply (read_handlers_reject_missing_user_id (Some "") "s1" "b1" two_subjects).
  reflexivity.
Defined.

Lemma request_lesson_missing req user_id w :
  truthy (resolved user_id (LessonRequest.user_id req)) = false →
  request_lesson req user_id w = (Raise missing_user_id, w).
Proof.
  unfold resolved, request_lesson. intros Hr.
  destruct (truthy user_id) eqn:Hh; cbn [negb]; cbv zeta.
  - by rewrite Hh in Hr.
  - by destruct (LessonRequest.user_id req).
Qed.

Lemma create_schedule_missing s user_id uuid4 w :
  truthy (resolved user_id (Schedule.user_id s)) = false →
  create_schedule s user_id uuid4 w = (Raise missing_user_id, w).
Proof.
  unfold resolved, create_schedule. intros Hr.
  destruct (truthy user_id) eqn:Hh; cbn [negb]; cbv zeta; by rewrite Hr.
Qed.

(** [POST /api/lessons], [POST /api/progress] and [POST /api/schedules]
    answer 401 and write nothing when neither the dependency nor the body
    gives a non-empty user id. *)
Theorem write_handlers_reject_missing_user_id (user_id : option string)
    (req : LessonRequest.t) (progress : Progress.t) (s : Schedule.t)
    (now : Z) (uuid4 : string) (w : world) :
  truthy user_id = false →
  LessonRequest.user_id req = "" →
  Progress.user_id progress = "" →
  Schedule.user_id s = "" →
  request_lesson req user_id w = (Raise (HTTPException 401 "Missing user id"), w) ∧
  upsert_progress progress user_id now w
    = (Raise (HTTPException 401 "Missing user id"), w) ∧
  create_schedule s user_id uuid4 w = (Raise (HTTPException 401 "Missing user id"), w).
Proof.
  intros Hh Hr Hp Hs. split_and!.
  - apply request_lesson_missing. unfold resolved. by rewrite Hh, Hr.
  - apply upsert_progress_missing. unfold resolved. by rewrite Hh, Hp.
  - apply create_schedule_missing. unfold resolved. by rewrite Hh, Hs.
Qed.

Lemma write_handlers_reject_missing_user_id_witness :
  truthy None = false ∧
  request_lesson anonymous_request None empty_world
    = (Raise (HTTPException 401 "Missing user id"), empty_world) ∧
  upsert_progress anonymous_progress None 4 empty_world
    = (Raise (HTTPException 401 "Missing user id"), empty_world) ∧
  create_schedule anonymous_schedule None "j1" empty_world
    = (Raise (HTTPException 401 "Missing user id"), empty_world).
Proof.
  split; [reflexivity|].
  apply (write_handlers_reject_missing_user_id None anonymous_request anonymous_progress
           anonymous_schedule 4 "j1" empty_world); reflexivity.
Defined.

(** [create_subject], called with a validated body: when neither the
    value the dependency yields nor the body's [user_id] is non-empty it
    raises 401, and the world is left as it was. *)
Theorem create_subject_missing_user_id (subject : Subject.t) (user_id : option string) (w : world) :
  truthy user_id = false →
  truthy (Some (Subject.user_id subject)) = false →
  create_subject subject user_id w = (Raise (HTTPException 401 "Missing user id"), w).
Proof.
  intros Hh Hb. unfold create_subject. rewrite Hh. cbn [negb]. cbv zeta.
  rewrite Hb. reflexivity.
Qed.

Lemma create_subject_missing_user_id_witness :
  truthy (Some "") = false ∧
  truthy (Some (Subject.user_id (Subject.Make "" "Chemistry" None))) = false ∧
  create_subject (Subject.Make "" "Chemistry" None) (Some "") empty_world
    = (Raise (HTTPException 401 "Missing user id"), empty_world).
Proof.
  split; [reflexivity|]. split; [reflexivity|].
  apply (create_subject_missing_user_id (Subject.Make "" "Chemistry" None) (Some "") empty_world);
    reflexivity.
Defined.

(** ** Listing *)

Lemma get_documents_run name q w :
  get_documents name q w
    = (Return (doc_view <$> filter (λ d, matches q d = true) (collection w name)), w).
Proof. reflexivity. Qed.

Lemma elem_of_listing (q : query) (c : list document) (m : dict) :
  m ∈ doc_view <$> filter (λ d, matches q d = true) c ↔
  ∃ d, d ∈ c ∧ matches q d = true ∧ m = doc_view d.
Proof.
  rewrite list_elem_of_fmap. split.
  - intros (d & -> & Hd). apply list_elem_of_filter in Hd as [? ?]. eauto.
  - intros (d & Hd & Hm & ->). exists d. split; [done|]. by apply list_elem_of_filter.
Qed.

Lemma matches_two_fields k1 v1 k2 v2 d :
  matches (FieldsEq [(k1, v1); (k2, v2)]) d = true ↔
  doc_fields d !! k1 = Some v1 ∧ doc_fields d !! k2 = Some v2.
Proof. simpl. rewrite andb_true_r, andb_true_iff, !bool_decide_eq_true. done. Qed.

Lemma doc_view_lookup d k : k ≠ "_id" → doc_view d !! k = doc_fields d !! k.
Proof. intros. unfold doc_view. by rewrite lookup_insert_ne. Qed.

Lemma doc_view_id d : doc_view d !! "_id" = Some (VStr (str_ident (doc_id d))).
Proof. unfold doc_view. by rewrite lookup_insert_eq. Qed.

(** [GET /api/books] for a non-empty user id returns the stored books
    whose [user_id] and [subject_id] both equal the ones asked for, all of
    them and no other, and leaves the world as it was. *)
Theorem list_books_sound_complete (subject_id u : string) (w : world) :
  u ≠ "" →
  ∃ items,
    list_books subject_id (Some u) w = (Return items, w) ∧
    (∀ m, m ∈ items →
          m !! "user_id" = Some (VStr u) ∧ m !! "subject_id" = Some (VStr subject_id)) ∧
    (∀ d, d ∈ collection w "book" →
          doc_fields d !! "user_id" = Some (VStr u) →
          doc_fields d !! "subject_id" = Some (VStr subject_id) →
          doc_view d ∈ items).
Proof.
  intros Hu. unfold list_books.
  assert (truthy (Some u) = true) as -> by by destruct u.
  cbn [negb]. rewrite get_documents_run. eexists. split; [done|]. split.
  - intros m (d & _ & [H1 H2]%matches_two_fields & ->)%elem_of_listing.
    by rewrite !doc_view_lookup.
  - intros d Hd H1 H2. apply elem_of_listing. exists d.
    split_and!; [done| |done]. by apply matches_two_fields.
Qed.

Lemma list_books_sound_complete_witness :
  "u1" ≠ "" ∧
  ∃ items,
    list_books "s1" (Some "u1") two_books = (Return items, two_books) ∧
    (∀ m, m ∈ items →
          m !! "user_id" = Some (VStr "u1") ∧ m !! "subject_id" = Some (VStr "s1")) ∧
    (∀ d, d ∈ collection two_books "book" →
          doc_fields d !! "user_id" = Some (VStr "u1") →
          doc_fields d !! "subject_id" = Some (VStr "s1") →
          doc_view d ∈ items).
Proof.
  split; [done|]. apply (list_books_sound_complete "s1" "u1" two_books). done.
Defined.

(** [GET /api/progress] for a non-empty user id returns the stored
    progress records whose [user_id] and [book_id] both equal the ones
    asked for, all of them and no other, and leaves the world as it was. *)
Theorem get_progress_sound_complete (book_id u : string) (w : world) :
  u ≠ "" →
  ∃ items,
    get_progress book_id (Some u) w = (Return items, w) ∧
    items = doc_view <$> records_for u book_id (collection w "progress") ∧
    (∀ m, m ∈ items →
          m !! "user_id" = Some (VStr u) ∧ m !! "book_id" = Some (VStr book_id)) ∧
    (∀ d, d ∈ collection w "progress" →
          doc_fields d !! "user_id" = Some (VStr u) →
          doc_fields d !! "book_id" = Some (VStr book_id) →
          doc_view d ∈ items).
Proof.
  intros Hu. unfold get_progress.
  assert (truthy (Some u) = true) as -> by by destruct u.
  cbn [negb]. rewrite get_documents_run. eexists. split; [done|]. split; [done|]. split.
  - intros m (d & _ & [H1 H2]%matches_two_fields & ->)%elem_of_listing.
    by rewrite !doc_view_lookup.
  - intros d Hd H1 H2. apply elem_of_listing. exists d.
    split_and!; [done| |done]. by apply matches_two_fields.
Qed.

Lemma get_progress_sound_complete_witness :
  "u1" ≠ "" ∧
  ∃ items,
    get_progress "b1" (Some "u1") duplicated_progress = (Return items, duplicated_progress) ∧
    items = doc_view <$> records_for "u1" "b1" (collection duplicated_progress "progress") ∧
    (∀ m, m ∈ items →
          m !! "user_id" = Some (VStr "u1") ∧ m !! "book_id" = Some (VStr "b1")) ∧
    (∀ d, d ∈ collection duplicated_progress "progress" →
          doc_fields d !! "user_id" = Some (VStr "u1") →
          doc_fields d !! "book_id" = Some (VStr "b1") →
          doc_view d ∈ items).
Proof.
  split; [done|]. apply (get_progress_sound_complete "b1" "u1" duplicated_progress). done.
Defined.

(** ** Creating and then listing *)

(** A subject created for user [u] is the last item [GET /api/subjects]
    returns for [u] afterwards, under the identifier the creation
    reported and with the body's name and description; the items listed
    before are still listed, in the same order. *)
Theorem create_subject_then_list (subject : Subject.t) (user_id : option string)
    (u : string) (w : world) :
  resolved user_id (Subject.user_id subject) = Some u →
  u ≠ "" →
  let r := create_subject subject user_id w in
  ∃ id items,
    r.1 = Return {[ "id" := VStr id ]} ∧
    list_subjects (Some u) w = (Return items, w) ∧
    list_subjects (Some u) r.2
      = (Return (items ++
           [<["_id" := VStr id]>
              (<["user_id" := VStr u]> (Subject.model_dump subject))]), r.2).
Proof.
  intros Hr Hu r. subst r. rewrite (create_subject_run _ _ u) by done. simpl.
  unfold list_subjects.
  assert (truthy (Some u) = true) as -> by by destruct u.
  cbn [negb]. rewrite !get_documents_run, collection_set_eq.
  eexists _, _. split_and!; [done|done|].
  f_equal. f_equal. rewrite filter_app, fmap_app. f_equal.
  rewrite filter_cons_True, filter_nil; [done|].
  simpl. rewrite andb_true_r.
  apply bool_decide_eq_true. by rewrite lookup_insert_eq.
Qed.

Lemma create_subject_then_list_witness :
  resolved None (Subject.user_id (Subject.Make "u1" "Biology" (Some "cells")))
    = Some "u1" ∧
  "u1" ≠ "" ∧
  let r := create_subject (Subject.Make "u1" "Biology" (Some "cells")) None two_subjects in
  ∃ id items,
    r.1 = Return {[ "id" := VStr id ]} ∧
    list_subjects (Some "u1") two_subjects = (Return items, two_subjects) ∧
    list_subjects (Some "u1") r.2
      = (Return (items ++
           [<["_id" := VStr id]>
              (<["user_id" := VStr "u1"]>
                 (Subject.model_dump (Subject.Make "u1" "Biology" (Some "cells"))))]), r.2).
Proof.
  split; [reflexivity|]. split; [done|].
  apply (create_subject_then_list (Subject.Make "u1" "Biology" (Some "cells")) None
           "u1" two_subjects); [reflexivity|done].
Defined.

(** ** File names *)











(** ** Uploads *)

Lemma plain_name_inv filename :
  plain_name filename = true → occurs NUL filename = false ∧ occurs "/" filename = false.
Proof.
  unfold plain_name. intros [H1 H2]%andb_true_iff. by apply negb_true_iff in H1, H2.
Qed.











(** ** Lessons: what is stored, and patches that find their record *)

(** The stored lesson carries the resolved user id and the request's
    subject, book and prompt, with every result field null; the request's
    [source_mode], [start_page], [end_page] and [lines] are not stored. *)
Theorem request_lesson_stored_fields (req : LessonRequest.t) (user_id : option string)
    (u : string) (w : world) :
  resolved user_id (LessonRequest.user_id req) = Some u →
  u ≠ "" →
  let r := request_lesson req user_id w in
  ∃ d,
    collection r.2 "lesson" = collection w "lesson" ++ [d] ∧
    doc_fields d !! "user_id" = Some (VStr u) ∧
    doc_fields d !! "subject_id" = Some (VStr (LessonRequest.subject_id req)) ∧
    doc_fields d !! "book_id" = Some (VStr (LessonRequest.book_id req)) ∧
    doc_fields d !! "prompt" = Some (VStr (LessonRequest.prompt req)) ∧
    doc_fields d !! "input_excerpt" = Some VNone ∧
    doc_fields d !! "explanation" = Some VNone ∧
    doc_fields d !! "analogies" = Some VNone ∧
    doc_fields d !! "error" = Some VNone ∧
    doc_fields d !! "source_mode" = None ∧
    doc_fields d !! "start_page" = None ∧
    doc_fields d !! "end_page" = None ∧
    doc_fields d !! "lines" = None.
Proof.
  intros Hr Hu r. subst r. rewrite (request_lesson_run _ _ u) by done. cbv zeta.
  eexists. split; [apply collection_set_eq|]. simpl. split_and!; reflexivity.
Qed.

Lemma request_lesson_stored_fields_witness :
  resolved (Some "u1") (LessonRequest.user_id a_request) = Some "u1" ∧
  "u1" ≠ "" ∧
  let r := request_lesson a_request (Some "u1") empty_world in
  ∃ d,
    collection r.2 "lesson" = collection empty_world "lesson" ++ [d] ∧
    doc_fields d !! "user_id" = Some (VStr "u1") ∧
    doc_fields d !! "subject_id" = Some (VStr (LessonRequest.subject_id a_request)) ∧
    doc_fields d !! "book_id" = Some (VStr (LessonRequest.book_id a_request)) ∧
    doc_fields d !! "prompt" = Some (VStr (LessonRequest.prompt a_request)) ∧
    doc_fields d !! "input_excerpt" = Some VNone ∧
    doc_fields d !! "explanation" = Some VNone ∧
    doc_fields d !! "analogies" = Some VNone ∧
    doc_fields d !! "error" = Some VNone ∧
    doc_fields d !! "source_mode" = None ∧
    doc_fields d !! "start_page" = None ∧
    doc_fields d !! "end_page" = None ∧
    doc_fields d !! "lines" = None.
Proof.
  split; [reflexivity|]. split; [done|].
  apply (request_lesson_stored_fields a_request (Some "u1") "u1" empty_world);
    [reflexivity|done].
Defined.

Lemma find_id_Some_split i c t :
  find (matches (IdEq i)) c = Some t →
  doc_id t = i ∧
  ∃ l1 l2, c = l1 ++ t :: l2 ∧ Forall (λ d, matches (IdEq (doc_id t)) d = false) l1.
Proof.
  intros (l1 & l2 & -> & Hm & Hl1)%find_Some_split.
  simpl in Hm. apply bool_decide_eq_true in Hm. subst i. eauto.
Qed.

(** The located record is the first of the collection under its [_id]. *)
Lemma located_split to_bson lesson_id c t :
  located to_bson lesson_id c = Return (Some t) →
  ∃ l1 l2, c = l1 ++ t :: l2 ∧ Forall (λ d, matches (IdEq (doc_id t)) d = false) l1.
Proof.
  unfold located. destruct (to_bson lesson_id) as [native|e]; [|done].
  destruct (find (matches (IdEq native)) c) as [d|] eqn:Hf.
  - intros [= ->]. by apply find_id_Some_split in Hf as [_ ?].
  - intros [= Hf2]. by apply find_id_Some_split in Hf2 as [_ ?].
Qed.

Lemma update_first_ids q u c : doc_id <$> update_first q u c = doc_id <$> c.
Proof.
  induction c as [|d c IH]; [done|]. cbn [update_first].
  destruct (matches q d); [done|]. rewrite !fmap_cons. by rewrite IH.
Qed.

(** A patch whose lookup returns a record (the serializer did not raise,
    and a record was found under the identifier it returned or, failing
    that, under the text) rewrites that record in place: every field the
    call provides takes the provided value, whatever text is given for
    [status] and whatever the record's status was, and [updated_at] is
    stamped. The call answers [{"ok": true}]. *)
Theorem patch_lesson_applies (to_bson : string → outcome ident) (lesson_id : string)
    (status input_excerpt explanation : option string)
    (analogies : option (list string)) (error : option string) (now : Z)
    (w : world) (t : document) :
  located to_bson lesson_id (collection w "lesson") = Return (Some t) →
  let r := patch_lesson to_bson lesson_id status input_excerpt explanation analogies error now w in
  ∃ l1 l2 t',
    collection w "lesson" = l1 ++ t :: l2 ∧
    collection r.2 "lesson" = l1 ++ t' :: l2 ∧
    r.1 = Return {[ "ok" := VBool true ]} ∧
    doc_id t' = doc_id t ∧
    (∀ s, status = Some s → doc_fields t' !! "status" = Some (VStr s)) ∧
    (∀ s, input_excerpt = Some s → doc_fields t' !! "input_excerpt" = Some (VStr s)) ∧
    (∀ s, explanation = Some s → doc_fields t' !! "explanation" = Some (VStr s)) ∧
    (∀ l, analogies = Some l → doc_fields t' !! "analogies" = Some (VStrList l)) ∧
    (∀ s, error = Some s → doc_fields t' !! "error" = Some (VStr s)) ∧
    doc_fields t' !! "updated_at" = Some (VDatetime now).
Proof.
  intros Hloc r. subst r. rewrite patch_lesson_run, Hloc. simpl.
  rewrite collection_set_eq.
  destruct (located_split _ _ _ _ Hloc) as (l1 & l2 & Hc & Hl1).
  exists l1, l2,
    (apply_set (patch_updates status input_excerpt explanation analogies error now) t).
  split; [done|]. split.
  { rewrite Hc. apply update_first_split; [done|]. simpl. by apply bool_decide_eq_true. }
  split_and!; try done;
    try (intros ? ->; apply apply_set_lookup_set; by rewrite patch_updates_lookup).
  apply apply_set_lookup_set. by rewrite patch_updates_lookup.
Qed.

Lemma patch_lesson_applies_witness :
  located any_object_id "a1" (collection one_lesson "lesson")
    = Return (Some (Doc (ObjectId "a1") explained_lesson)) ∧
  let r := patch_lesson any_object_id "a1" (Some "archived") None None None (Some "late") 9
             one_lesson in
  ∃ l1 l2 t',
    collection one_lesson "lesson" = l1 ++ Doc (ObjectId "a1") explained_lesson :: l2 ∧
    collection r.2 "lesson" = l1 ++ t' :: l2 ∧
    r.1 = Return {[ "ok" := VBool true ]} ∧
    doc_id t' = ObjectId "a1" ∧
    (∀ s, Some "archived" = Some s → doc_fields t' !! "status" = Some (VStr s)) ∧
    (∀ s, None = Some s → doc_fields t' !! "input_excerpt" = Some (VStr s)) ∧
    (∀ s, None = Some s → doc_fields t' !! "explanation" = Some (VStr s)) ∧
    (∀ l, None = Some l → doc_fields t' !! "analogies" = Some (VStrList l)) ∧
    (∀ s, Some "late" = Some s → doc_fields t' !! "error" = Some (VStr s)) ∧
    doc_fields t' !! "updated_at" = Some (VDatetime 9).
Proof.
  split; [reflexivity|].
  apply (patch_lesson_applies any_object_id "a1" (Some "archived") None None None (Some "late") 9
           one_lesson (Doc (ObjectId "a1") explained_lesson)).
  reflexivity.
Defined.

(** No patch call creates, removes or reorders a lesson, and none touches
    another collection or the uploaded files. *)
Theorem patch_lesson_frame (to_bson : string → outcome ident) (lesson_id : string)
    (status input_excerpt explanation : option string)
    (analogies : option (list string)) (error : option string) (now : Z) (w : world) :
  let r := patch_lesson to_bson lesson_id status input_excerpt explanation analogies error now w in
  doc_id <$> collection r.2 "lesson" = doc_id <$> collection w "lesson" ∧
  uploads r.2 = uploads w ∧
  ∀ name, name ≠ "lesson" → collection r.2 name = collection w name.
Proof.
  intros r. subst r. rewrite patch_lesson_run.
  destruct (located to_bson lesson_id (collection w "lesson")) as [[t|]|e]; simpl;
    [|done|done].
  rewrite collection_set_eq, update_first_ids. split_and!; [done|done|].
  intros name Hne. by rewrite collection_set_ne.
Qed.

Lemma apply_set_absorb u1 u2 d :
  (∀ k, is_Some (u1 !! k) → is_Some (u2 !! k)) →
  apply_set u2 (apply_set u1 d) = apply_set u2 d.
Proof.
  intros Hdom. unfold apply_set; simpl. f_equal. apply map_eq. intros k.
  destruct (u2 !! k) as [v|] eqn:H2.
  - by rewrite !(lookup_union_Some_l _ _ _ v).
  - rewrite (lookup_union_r u2 (u1 ∪ doc_fields d)), (lookup_union_r u2 (doc_fields d))
      by done.
    destruct (u1 !! k) as [v|] eqn:H1; [|by rewrite lookup_union_r].
    destruct (Hdom k) as [v' Hv']; [by rewrite H1|]. congruence.
Qed.

Lemma patch_updates_same_keys status input_excerpt explanation analogies error now1 now2 k :
  is_Some (patch_updates status input_excerpt explanation analogies error now1 !! k) →
  is_Some (patch_updates status input_excerpt explanation analogies error now2 !! k).
Proof. rewrite !patch_updates_lookup. by repeat case_decide. Qed.

Lemma set_collection_twice name c c' w :
  set_collection name c (set_collection name c' w) = set_collection name c w.
Proof. unfold set_collection; simpl. by rewrite insert_insert_eq. Qed.

Lemma find_id_in_split i l1 t l2 :
  Forall (λ d, matches (IdEq i) d = false) l1 → doc_id t = i →
  find (matches (IdEq i)) (l1 ++ t :: l2) = Some t.
Proof.
  intros Hl1 Ht. rewrite find_app_skip by done.
  cbn [find matches]. by rewrite bool_decide_eq_true_2.
Qed.

Lemma find_id_None_ids i c c' :
  doc_id <$> c' = doc_id <$> c →
  find (matches (IdEq i)) c = None → find (matches (IdEq i)) c' = None.
Proof.
  intros Hids Hf. apply find_id_None. apply Forall_forall. intros d Hd Hid.
  assert (i ∈ doc_id <$> c) as Hin.
  { rewrite <- Hids, <- Hid. by apply list_elem_of_fmap_2. }
  apply list_elem_of_fmap in Hin as (d' & Hid' & Hd').
  apply find_None_Forall in Hf. rewrite Forall_forall in Hf.
  specialize (Hf d' Hd'). simpl in Hf. apply bool_decide_eq_false in Hf. by apply Hf.
Qed.

(** After the update the same text locates the updated record. *)
Lemma located_after_update to_bson lesson_id u c t :
  located to_bson lesson_id c = Return (Some t) →
  located to_bson lesson_id (update_first (IdEq (doc_id t)) u c)
    = Return (Some (apply_set u t)).
Proof.
  intros Hloc. destruct (located_split _ _ _ _ Hloc) as (l1 & l2 & Hc & Hl1).
  assert (update_first (IdEq (doc_id t)) u c = l1 ++ apply_set u t :: l2) as Hup.
  { rewrite Hc. apply update_first_split; [done|]. simpl. by apply bool_decide_eq_true. }
  unfold located in *. destruct (to_bson lesson_id) as [native|e]; [|done].
  destruct (find (matches (IdEq native)) c) as [d|] eqn:Hf.
  - injection Hloc as ->. apply find_id_Some_split in Hf as [Hid _].
    rewrite Hup, <- Hid. by rewrite find_id_in_split.
  - rewrite (find_id_None_ids _ c) by (by rewrite ?update_first_ids).
    injection Hloc as Hloc. apply find_id_Some_split in Hloc as [Hid _].
    rewrite Hup, <- Hid. by rewrite find_id_in_split.
Qed.

(** Repeating a patch only moves [updated_at]: the same call made again
    at a later time leaves the world that a single call at the later time
    leaves, and gives the same answer. With the same time the second call
    changes nothing. *)
Theorem patch_lesson_repeated (to_bson : string → outcome ident) (lesson_id : string)
    (status input_excerpt explanation : option string)
    (analogies : option (list string)) (error : option string) (now1 now2 : Z)
    (w : world) :
  let r1 := patch_lesson to_bson lesson_id status input_excerpt explanation analogies error now1 w in
  patch_lesson to_bson lesson_id status input_excerpt explanation analogies error now2 r1.2
    = patch_lesson to_bson lesson_id status input_excerpt explanation analogies error now2 w.
Proof.
  intros r1. subst r1. rewrite !(patch_lesson_run _ _ _ _ _ _ _ _ w).
  destruct (located to_bson lesson_id (collection w "lesson")) as [[t|]|e] eqn:Hloc; simpl;
    [|by rewrite patch_lesson_run, Hloc..].
  - rewrite patch_lesson_run, collection_set_eq.
    rewrite (located_after_update _ _ _ _ t) by done.
    destruct (located_split _ _ _ _ Hloc) as (l1 & l2 & Hc & Hl1).
    f_equal. rewrite set_collection_twice. f_equal.
    rewrite apply_set_id, Hc.
    rewrite !(update_first_split _ _ l1 t) by (done || (simpl; by apply bool_decide_eq_true)).
    rewrite (update_first_split _ _ l1 (apply_set _ t))
      by (done || (simpl; by apply bool_decide_eq_true)).
    rewrite apply_set_absorb; [done|]. intros k. apply patch_updates_same_keys.
Qed.

(** A lesson that was just requested can be patched under the identifier
    the request returned, once the serializer returns the record's [_id]
    for that text: the patch reaches the new record, which keeps its
    prompt and takes the patch's fields. *)
Theorem request_then_patch (to_bson : string → outcome ident) (req : LessonRequest.t)
    (user_id : option string) (u : string)
    (status input_excerpt explanation : option string)
    (analogies : option (list string)) (error : option string) (now : Z) (w : world) :
  resolved user_id (LessonRequest.user_id req) = Some u →
  u ≠ "" →
  let r1 := request_lesson req user_id w in
  ∃ id d,
    r1.1 = Return (<["id" := VStr id]> {[ "status" := VStr "queued" ]}) ∧
    collection r1.2 "lesson" = collection w "lesson" ++ [d] ∧
    (to_bson id = Return (doc_id d) →
     let r2 := patch_lesson to_bson id status input_excerpt explanation analogies error now r1.2 in
     ∃ d',
       r2.1 = Return {[ "ok" := VBool true ]} ∧
       collection r2.2 "lesson" = collection w "lesson" ++ [d'] ∧
       d' = apply_set (patch_updates status input_excerpt explanation analogies error now) d ∧
       doc_fields d' !! "prompt" = Some (VStr (LessonRequest.prompt req)) ∧
       doc_fields d' !! "status" = Some (VStr (default "pending" status))).
Proof.
  intros Hr Hu r1. subst r1. rewrite (request_lesson_run _ _ u) by done. cbv zeta.
  eexists _, _. split; [done|]. split; [apply collection_set_eq|].
  simpl. intros Hto.
  set (c := collection w "lesson") in *.
  set (d := Doc (new_object_id c) _) in *.
  assert (Forall (λ x, matches (IdEq (doc_id d)) x = false) c) as Hc.
  { apply Forall_forall. intros x Hx. simpl. apply bool_decide_eq_false_2. intros Hid.
    apply (new_object_id_fresh c). rewrite <- Hid. by apply list_elem_of_fmap_2. }
  rewrite patch_lesson_run, collection_set_eq.
  change (fresh_string_of_set "oid" (list_to_set (object_ids c)))
    with (str_ident (doc_id d)) in *.
  assert (located to_bson (str_ident (doc_id d)) (c ++ [d]) = Return (Some d)) as ->.
  { unfold located. rewrite Hto. by rewrite find_id_in_split. }
  simpl. rewrite collection_set_eq. eexists. split; [done|].
  split; [by apply update_first_split; [|simpl; apply bool_decide_eq_true]|].
  split; [done|]. split.
  - rewrite apply_set_lookup_keep; [done|]. by rewrite patch_updates_lookup.
  - destruct status as [s|].
    + apply apply_set_lookup_set. by rewrite patch_updates_lookup.
    + rewrite apply_set_lookup_keep; [done|]. by rewrite patch_updates_lookup.
Qed.

Lemma request_then_patch_witness :
  resolved None (LessonRequest.user_id a_request) = Some "u1" ∧
  "u1" ≠ "" ∧
  let r1 := request_lesson a_request None empty_world in
  ∃ id d,
    r1.1 = Return (<["id" := VStr id]> {[ "status" := VStr "queued" ]}) ∧
    collection r1.2 "lesson" = collection empty_world "lesson" ++ [d] ∧
    (any_object_id id = Return (doc_id d) →
     let r2 := patch_lesson any_object_id id (Some "complete") None (Some "Atoms") None None 9 r1.2 in
     ∃ d',
       r2.1 = Return {[ "ok" := VBool true ]} ∧
       collection r2.2 "lesson" = collection empty_world "lesson" ++ [d'] ∧
       d' = apply_set (patch_updates (Some "complete") None (Some "Atoms") None None 9) d ∧
       doc_fields d' !! "prompt" = Some (VStr (LessonRequest.prompt a_request)) ∧
       doc_fields d' !! "status" = Some (VStr (default "pending" (Some "complete")))).
Proof.
  split; [reflexivity|]. split; [done|].
  apply (request_then_patch any_object_id a_request None "u1" (Some "complete") None
           (Some "Atoms") None None 9 empty_world); [reflexivity|done].
Defined.

(** ** Progress: full replacement, and reading back *)

(** An upsert that finds a record for its key replaces all six Progress
    fields of the first such record, the optional ones included: a value
    the call leaves out is stored as null over whatever the record had.
    [updated_at] is stamped; every other field of the record is kept. *)
Theorem upsert_progress_replaces_fields (progress : Progress.t) (user_id : option string)
    (u : string) (now : Z) (w : world) (e : document) :
  resolved user_id (Progress.user_id progress) = Some u →
  u ≠ "" →
  NoDup (doc_id <$> collection w "progress") →
  head (records_for u (Progress.book_id progress) (collection w "progress")) = Some e →
  let r := upsert_progress progress user_id now w in
  ∃ l1 l2 e',
    collection w "progress" = l1 ++ e :: l2 ∧
    collection r.2 "progress" = l1 ++ e' :: l2 ∧
    r.1 = Return {[ "id" := VStr (str_ident (doc_id e)) ]} ∧
    doc_id e' = doc_id e ∧
    doc_fields e' !! "user_id" = Some (VStr u) ∧
    doc_fields e' !! "book_id" = Some (VStr (Progress.book_id progress)) ∧
    doc_fields e' !! "subject_id" = Some (VStr (Progress.subject_id progress)) ∧
    doc_fields e' !! "last_covered_page"
      = Some (of_opt VInt (Progress.last_covered_page progress)) ∧
    doc_fields e' !! "last_covered_line"
      = Some (of_opt VInt (Progress.last_covered_line progress)) ∧
    doc_fields e' !! "notes" = Some (of_opt VStr (Progress.notes progress)) ∧
    doc_fields e' !! "updated_at" = Some (VDatetime now) ∧
    (∀ k, k ∉ ["user_id"; "subject_id"; "book_id"; "last_covered_page";
               "last_covered_line"; "notes"; "updated_at"] →
          doc_fields e' !! k = doc_fields e !! k).
Proof.
  intros Hr Hu Hnd Hhead r. subst r.
  assert (find (matches (progress_query u (Progress.book_id progress)))
            (collection w "progress") = Some e) as Hf.
  { by rewrite find_head_filter. }
  rewrite (upsert_progress_existing _ _ u _ _ e) by done. simpl.
  rewrite collection_set_eq.
  destruct (find_Some_split _ _ _ Hf) as (l1 & l2 & Hc & Hm & _).
  rewrite Hc in Hnd |- *. rewrite update_by_id by done.
  eexists l1, l2, _. split_and!; try done;
    try (apply apply_set_lookup_set; reflexivity).
  intros k Hk. apply apply_set_lookup_keep.
  unfold progress_payload, Progress.model_dump.
  rewrite !lookup_insert_ne; [done|..]; intros <-; apply Hk; set_solver.
Qed.

Lemma upsert_progress_replaces_fields_witness :
  resolved (Some "u1") (Progress.user_id second_progress) = Some "u1" ∧
  "u1" ≠ "" ∧
  NoDup (doc_id <$> collection noted_progress "progress") ∧
  head (records_for "u1" (Progress.book_id second_progress)
          (collection noted_progress "progress"))
    = Some (Doc (ObjectId "a1")
              (<["created_at" := VDatetime 1]> (progress_payload "u1" first_progress))) ∧
  let e := Doc (ObjectId "a1")
             (<["created_at" := VDatetime 1]> (progress_payload "u1" first_progress)) in
  let r := upsert_progress second_progress (Some "u1") 8 noted_progress in
  ∃ l1 l2 e',
    collection noted_progress "progress" = l1 ++ e :: l2 ∧
    collection r.2 "progress" = l1 ++ e' :: l2 ∧
    r.1 = Return {[ "id" := VStr (str_ident (doc_id e)) ]} ∧
    doc_id e' = doc_id e ∧
    doc_fields e' !! "user_id" = Some (VStr "u1") ∧
    doc_fields e' !! "book_id" = Some (VStr (Progress.book_id second_progress)) ∧
    doc_fields e' !! "subject_id" = Some (VStr (Progress.subject_id second_progress)) ∧
    doc_fields e' !! "last_covered_page"
      = Some (of_opt VInt (Progress.last_covered_page second_progress)) ∧
    doc_fields e' !! "last_covered_line"
      = Some (of_opt VInt (Progress.last_covered_line second_progress)) ∧
    doc_fields e' !! "notes" = Some (of_opt VStr (Progress.notes second_progress)) ∧
    doc_fields e' !! "updated_at" = Some (VDatetime 8) ∧
    (∀ k, k ∉ ["user_id"; "subject_id"; "book_id"; "last_covered_page";
               "last_covered_line"; "notes"; "updated_at"] →
          doc_fields e' !! k = doc_fields e !! k).
Proof.
  assert (NoDup (doc_id <$> collection noted_progress "progress")) as Hnd.
  { vm_compute. apply NoDup_singleton. }
  split_and!; [reflexivity|done|exact Hnd|reflexivity|].
  apply (upsert_progress_replaces_fields second_progress (Some "u1") "u1" 8 noted_progress);
    [reflexivity|done|exact Hnd|reflexivity].
Defined.

(** What was upserted is what [GET /api/progress] reads back: in a world
    with unique identifiers and at most one record for the key, the call
    for the same user and book returns exactly one item, under the
    identifier the upsert reported and with the upsert's six fields. *)
Theorem upsert_then_get_progress (progress : Progress.t) (user_id : option string)
    (u : string) (now : Z) (w : world) :
  resolved user_id (Progress.user_id progress) = Some u →
  u ≠ "" →
  NoDup (doc_id <$> collection w "progress") →
  (length (records_for u (Progress.book_id progress) (collection w "progress")) ≤ 1)%nat →
  let r := upsert_progress progress user_id now w in
  ∃ id item,
    r.1 = Return {[ "id" := VStr id ]} ∧
    get_progress (Progress.book_id progress) (Some u) r.2 = (Return [item], r.2) ∧
    item !! "_id" = Some (VStr id) ∧
    (∀ k v, progress_payload u progress !! k = Some v → item !! k = Some v).
Proof.
  intros Hr Hu Hnd Hle r.
  assert (∃ d, r.1 = Return {[ "id" := VStr (str_ident (doc_id d)) ]} ∧
               records_for u (Progress.book_id progress) (collection r.2 "progress") = [d] ∧
               (∀ k v, progress_payload u progress !! k = Some v →
                       doc_fields d !! k = Some v)) as (d & Hret & Hrec & Hfields).
  { subst r.
    destruct (records_for u (Progress.book_id progress) (collection w "progress"))
      as [|e0 [|e1 rest]] eqn:Hrec; [| |simpl in Hle; lia].
    - destruct (upsert_progress_step_insert progress user_id u now w Hr Hu Hnd Hrec)
        as (Hret & Hrec' & _ & _). eexists. split_and!; [exact Hret|exact Hrec'|done].
    - destruct (upsert_progress_step_update progress user_id u now w e0 Hr Hu Hnd Hrec)
        as (Hret & Hrec' & _ & _).
      exists (apply_set (<["updated_at" := VDatetime now]> (progress_payload u progress)) e0).
      split_and!; [exact Hret|exact Hrec'|].
      intros k v Hk. apply apply_set_lookup_set.
      destruct (decide (k = "updated_at")) as [->|Hne]; [done|].
      by rewrite lookup_insert_ne. }
  exists (str_ident (doc_id d)), (doc_view d). split; [done|].
  unfold get_progress.
  assert (truthy (Some u) = true) as -> by by destruct u.
  cbn [negb]. rewrite get_documents_run.
  change (filter _ (collection r.2 "progress"))
    with (records_for u (Progress.book_id progress) (collection r.2 "progress")).
  rewrite Hrec. split_and!; [done|apply doc_view_id|].
  intros k v Hk. rewrite doc_view_lookup; [by apply Hfields|].
  intros ->. by vm_compute in Hk.
Qed.

Lemma upsert_then_get_progress_witness :
  resolved None (Progress.user_id first_progress) = Some "u1" ∧
  "u1" ≠ "" ∧
  NoDup (doc_id <$> collection noted_progress "progress") ∧
  (length (records_for "u1" (Progress.book_id first_progress)
             (collection noted_progress "progress")) ≤ 1)%nat ∧
  let r := upsert_progress first_progress None 4 noted_progress in
  ∃ id item,
    r.1 = Return {[ "id" := VStr id ]} ∧
    get_progress (Progress.book_id first_progress) (Some "u1") r.2 = (Return [item], r.2) ∧
    item !! "_id" = Some (VStr id) ∧
    (∀ k v, progress_payload "u1" first_progress !! k = Some v → item !! k = Some v).
Proof.
  assert (NoDup (doc_id <$> collection noted_progress "progress")) as Hnd.
  { vm_compute. apply NoDup_singleton. }
  assert (length (records_for "u1" (Progress.book_id first_progress)
                    (collection noted_progress "progress")) ≤ 1)%nat as Hle.
  { vm_compute. lia. }
  split_and!; [reflexivity|done|exact Hnd|exact Hle|].
  apply (upsert_then_get_progress first_progress None "u1" 4 noted_progress);
    [reflexivity|done|exact Hnd|exact Hle].
Defined.

(** ** Schedules *)

Lemma create_schedule_run s user_id u uuid4 w :
  resolved user_id (Schedule.user_id s) = Some u → u ≠ "" →
  let c := collection w "schedule" in
  create_schedule s user_id uuid4 w =
    (Return (<["id" := VStr (str_ident (new_object_id c))]>
               {[ "n8n_job_id" := VStr (job_id_of s uuid4) ]}),
     set_collection "schedule"
       (c ++ [Doc (new_object_id c)
                (<["n8n_job_id" := VStr (job_id_of s uuid4)]>
                   (<["user_id" := VStr u]> (Schedule.model_dump s)))]) w).
Proof.
  unfold resolved, create_schedule, job_id_of. intros Hr Hu.
  assert (truthy (Some u) = true) as Ht by by destruct u.
  destruct (truthy user_id) eqn:Hh; cbn [negb]; cbv zeta.
  - subst user_id. rewrite Ht. cbn [negb].
    destruct (Schedule.n8n_job_id s) as [[|a j]|] eqn:Hj;
      unfold Schedule.model_dump; rewrite Hj; reflexivity.
  - injection Hr as ->. rewrite Ht. cbn [negb].
    destruct (Schedule.n8n_job_id s) as [[|a j]|] eqn:Hj;
      unfold Schedule.model_dump; rewrite Hj; reflexivity.
Qed.

(** [POST /api/schedules] with a resolvable user id stores exactly one
    schedule. Its job id is the body's when that is non-empty and the drawn
    uuid otherwise (an empty text counts as absent); the response reports
    the job id that is stored, and the record's identifier. *)
Theorem create_schedule_job_id (s : Schedule.t) (user_id : option string)
    (u uuid4 : string) (w : world) :
  resolved user_id (Schedule.user_id s) = Some u →
  u ≠ "" →
  let r := create_schedule s user_id uuid4 w in
  let job := match Schedule.n8n_job_id s with
             | Some j => if bool_decide (j = "") then uuid4 else j
             | None => uuid4
             end in
  ∃ d,
    collection r.2 "schedule" = collection w "schedule" ++ [d] ∧
    r.1 = Return (<["id" := VStr (str_ident (doc_id d))]> {[ "n8n_job_id" := VStr job ]}) ∧
    doc_fields d !! "n8n_job_id" = Some (VStr job) ∧
    doc_fields d !! "user_id" = Some (VStr u) ∧
    doc_fields d !! "schedule_time_iso" = Some (VStr (Schedule.schedule_time_iso s)) ∧
    (∀ name, name ≠ "schedule" → collection r.2 name = collection w name).
Proof.
  intros Hr Hu r job. subst r.
  assert (job = job_id_of s uuid4) as ->.
  { subst job. unfold job_id_of. by destruct (Schedule.n8n_job_id s) as [[|a j]|]. }
  rewrite (create_schedule_run _ _ u) by done. cbv zeta.
  eexists. split; [apply collection_set_eq|]. simpl.
  split_and!; try reflexivity.
  intros name Hne. by rewrite collection_set_ne.
Qed.

Lemma create_schedule_job_id_witness :
  resolved (Some "u1") (Schedule.user_id a_schedule) = Some "u1" ∧
  "u1" ≠ "" ∧
  let r := create_schedule a_schedule (Some "u1") "j1" empty_world in
  let job := match Schedule.n8n_job_id a_schedule with
             | Some j => if bool_decide (j = "") then "j1" else j
             | None => "j1"
             end in
  ∃ d,
    collection r.2 "schedule" = collection empty_world "schedule" ++ [d] ∧
    r.1 = Return (<["id" := VStr (str_ident (doc_id d))]> {[ "n8n_job_id" := VStr job ]}) ∧
    doc_fields d !! "n8n_job_id" = Some (VStr job) ∧
    doc_fields d !! "user_id" = Some (VStr "u1") ∧
    doc_fields d !! "schedule_time_iso"
      = Some (VStr (Schedule.schedule_time_iso a_schedule)) ∧
    (∀ name, name ≠ "schedule" →
       collection r.2 name = collection empty_world name).
Proof.
  split; [reflexivity|]. split; [done|].
  apply (create_schedule_job_id a_schedule (Some "u1") "u1" "j1" empty_world);
    [reflexivity|done].
Defined.

(** ** What every request keeps *)

Lemma changes_set_append name name' fields w :
  changes_collection (collection w name')
    (collection
       (set_collection name
          (collection w name ++ [Doc (new_object_id (collection w name)) fields]) w) name').
Proof.
  destruct (decide (name = name')) as [->|Hne].
  - rewrite collection_set_eq. right. left. eauto.
  - rewrite collection_set_ne by done. by left.
Qed.

Lemma changes_set_update name name' q u w :
  changes_collection (collection w name')
    (collection (set_collection name (update_first q u (collection w name)) w) name').
Proof.
  destruct (decide (name = name')) as [->|Hne].
  - rewrite collection_set_eq. right. right. eauto.
  - rewrite collection_set_ne by done. by left.
Qed.

Lemma read_handlers_world subject_id book_id user_id w :
  (list_subjects user_id w).2 = w ∧
  (list_books subject_id user_id w).2 = w ∧
  (get_progress book_id user_id w).2 = w.
Proof.
  unfold list_subjects, list_books, get_progress.
  by destruct (truthy user_id).
Qed.

Lemma upload_book_world user_id subject_id filename content uuid4 w :
  let w' := (upload_book user_id subject_id filename content uuid4 w).2 in
  w' = w ∨
  ∃ path fields,
    w' = set_collection "book"
           (collection w "book" ++ [Doc (new_object_id (collection w "book")) fields])
           (put_file path content w).
Proof.
  intros w'. subst w'.
  destruct (endswith (lower filename) ".pdf") eqn:Hpdf.
  - destruct (plain_name filename) eqn:Hplain.
    + right. rewrite upload_book_run by done. simpl. eauto.
    + left.
      destruct (upload_book_open_fails user_id subject_id filename content uuid4 w Hpdf Hplain)
        as [e ->]. done.
  - left. unfold upload_book. by rewrite Hpdf.
Qed.

(** One call changes each collection in one of the three ways. *)
Lemma step_changes to_bson w w' name :
  step to_bson w w' → changes_collection (collection w name) (collection w' name).
Proof.
  destruct 1 as [subject h w|h w|u sid f content uuid w|sid h w|req h w|b h w
                 |p h now w|s h uuid w|lid st ie ex an er now w].
  - destruct (truthy (resolved h (Subject.user_id subject))) eqn:Ht.
    + apply truthy_Some_inv in Ht as (u & Hr & Hu).
      rewrite (create_subject_run _ _ u) by done. apply changes_set_append.
    + rewrite create_subject_missing by done. by left.
  - rewrite (proj1 (read_handlers_world "" "" h w)). by left.
  - destruct (upload_book_world u sid f content uuid w) as [->|(path & fields & ->)];
      [by left|].
    apply (changes_set_append "book" name fields (put_file path content w)).
  - rewrite (proj1 (proj2 (read_handlers_world sid "" h w))). by left.
  - destruct (truthy (resolved h (LessonRequest.user_id req))) eqn:Ht.
    + apply truthy_Some_inv in Ht as (u & Hr & Hu).
      rewrite (request_lesson_run _ _ u) by done. apply changes_set_append.
    + rewrite request_lesson_missing by done. by left.
  - rewrite (proj2 (proj2 (read_handlers_world "" b h w))). by left.
  - destruct (truthy (resolved h (Progress.user_id p))) eqn:Ht.
    + apply truthy_Some_inv in Ht as (u & Hr & Hu).
      destruct (find (matches (progress_query u (Progress.book_id p)))
                  (collection w "progress")) as [e|] eqn:Hf.
      * rewrite (upsert_progress_existing _ _ u _ _ e) by done. apply changes_set_update.
      * rewrite (upsert_progress_absent _ _ u) by done. apply changes_set_append.
    + rewrite upsert_progress_missing by done. by left.
  - destruct (truthy (resolved h (Schedule.user_id s))) eqn:Ht.
    + apply truthy_Some_inv in Ht as (u & Hr & Hu).
      rewrite (create_schedule_run _ _ u) by done. apply changes_set_append.
    + rewrite create_schedule_missing by done. by left.
  - rewrite patch_lesson_run.
    destruct (located to_bson lid (collection w "lesson")) as [[t|]|e];
      [|by left|by left].
    apply changes_set_update.
Qed.

(** Only [POST /api/progress] changes the progress collection. *)
Lemma step_progress to_bson w w' :
  step to_bson w w' →
  collection w' "progress" = collection w "progress" ∨
  ∃ p h now, w' = (upsert_progress p h now w).2.
Proof.
  destruct 1 as [subject h w|h w|u sid f content uuid w|sid h w|req h w|b h w
                 |p h now w|s h uuid w|lid st ie ex an er now w].
  - left. destruct (truthy (resolved h (Subject.user_id subject))) eqn:Ht.
    + apply truthy_Some_inv in Ht as (u & Hr & Hu).
      rewrite (create_subject_run _ _ u) by done. by apply collection_set_ne.
    + by rewrite create_subject_missing.
  - left. by rewrite (proj1 (read_handlers_world "" "" h w)).
  - left. destruct (upload_book_world u sid f content uuid w) as [->|(path & fields & ->)];
      [done|]. by rewrite collection_set_ne.
  - left. by rewrite (proj1 (proj2 (read_handlers_world sid "" h w))).
  - left. destruct (truthy (resolved h (LessonRequest.user_id req))) eqn:Ht.
    + apply truthy_Some_inv in Ht as (u & Hr & Hu).
      rewrite (request_lesson_run _ _ u) by done. by apply collection_set_ne.
    + by rewrite request_lesson_missing.
  - left. by rewrite (proj2 (proj2 (read_handlers_world "" b h w))).
  - right. eauto.
  - left. destruct (truthy (resolved h (Schedule.user_id s))) eqn:Ht.
    + apply truthy_Some_inv in Ht as (u & Hr & Hu).
      rewrite (create_schedule_run _ _ u) by done. by apply collection_set_ne.
    + by rewrite create_schedule_missing.
  - left. rewrite patch_lesson_run.
    destruct (located to_bson lid (collection w "lesson")) as [[t|]|e]; [|done|done].
    by apply collection_set_ne.
Qed.

(** A call removes no uploaded file. *)
Lemma step_uploads to_bson w w' :
  step to_bson w w' → dom (uploads w) ⊆ dom (uploads w').
Proof.
  destruct 1 as [subject h w|h w|u sid f content uuid w|sid h w|req h w|b h w
                 |p h now w|s h uuid w|lid st ie ex an er now w].
  - destruct (truthy (resolved h (Subject.user_id subject))) eqn:Ht.
    + apply truthy_Some_inv in Ht as (u & Hr & Hu).
      by rewrite (create_subject_run _ _ u) by done.
    + by rewrite create_subject_missing.
  - by rewrite (proj1 (read_handlers_world "" "" h w)).
  - destruct (upload_book_world u sid f content uuid w) as [->|(path & fields & ->)];
      [done|]. simpl. rewrite dom_insert_L. set_solver.
  - by rewrite (proj1 (proj2 (read_handlers_world sid "" h w))).
  - destruct (truthy (resolved h (LessonRequest.user_id req))) eqn:Ht.
    + apply truthy_Some_inv in Ht as (u & Hr & Hu).
      by rewrite (request_lesson_run _ _ u) by done.
    + by rewrite request_lesson_missing.
  - by rewrite (proj2 (proj2 (read_handlers_world "" b h w))).
  - destruct (truthy (resolved h (Progress.user_id p))) eqn:Ht.
    + apply truthy_Some_inv in Ht as (u & Hr & Hu).
      destruct (find (matches (progress_query u (Progress.book_id p)))
                  (collection w "progress")) as [e|] eqn:Hf.
      * by rewrite (upsert_progress_existing _ _ u _ _ e) by done.
      * by rewrite (upsert_progress_absent _ _ u) by done.
    + by rewrite upsert_progress_missing.
  - destruct (truthy (resolved h (Schedule.user_id s))) eqn:Ht.
    + apply truthy_Some_inv in Ht as (u & Hr & Hu).
      by rewrite (create_schedule_run _ _ u) by done.
    + by rewrite create_schedule_missing.
  - rewrite patch_lesson_run.
    by destruct (located to_bson lid (collection w "lesson")) as [[t|]|e].
Qed.

Lemma changes_keeps_ids_unique c c' :
  changes_collection c c' → NoDup (doc_id <$> c) → NoDup (doc_id <$> c').
Proof.
  intros [->|[(f & ->)|(q & u & ->)]] Hnd; [done| |].
  - by apply insert_keeps_ids_unique.
  - by rewrite update_first_ids.
Qed.

Lemma changes_ids_prefix c c' :
  changes_collection c c' → doc_id <$> c `prefix_of` doc_id <$> c'.
Proof.
  intros [->|[(f & ->)|(q & u & ->)]]; [done| |].
  - rewrite fmap_app. by apply prefix_app_r.
  - by rewrite update_first_ids.
Qed.

Lemma store_ok_empty : store_ok empty_world.
Proof.
  split.
  - intros name. unfold collection, empty_world; simpl. rewrite lookup_empty. apply NoDup_nil_2.
  - intros u b. unfold collection, empty_world; simpl. rewrite lookup_empty. simpl. lia.
Qed.

Lemma step_keeps_store_ok to_bson w w' :
  step to_bson w w' → store_ok w → store_ok w'.
Proof.
  intros Hstep [Hids Hone]. split.
  - intros name. eapply changes_keeps_ids_unique; [by eapply step_changes|done].
  - destruct (step_progress _ _ _ Hstep) as [->|(p & h & now & ->)]; [done|].
    by apply upsert_progress_keeps_at_most_one.
Qed.

(** Any sequence of requests, of any handlers with any arguments, started
    in a world where identifiers are unique within each collection and
    there is at most one Progress record per (user_id, book_id), ends in
    such a world; the empty store is one. *)
Theorem runs_keep_store_ok (to_bson : string → outcome ident) (w w' : world) :
  store_ok w → rtc (step to_bson) w w' → store_ok w'.
Proof.
  intros Hok Hrun. induction Hrun as [|w0 w1 w2 Hstep _ IH]; [done|].
  apply IH. by eapply step_keeps_store_ok.
Qed.

Lemma runs_keep_store_ok_witness :
  store_ok empty_world ∧
  rtc (step any_object_id) empty_world after_two_upserts ∧
  store_ok after_two_upserts.
Proof.
  assert (rtc (step any_object_id) empty_world after_two_upserts) as Hrun.
  { unfold after_two_upserts.
    eapply rtc_l; [apply step_upsert_progress|].
    eapply rtc_l; [apply step_upsert_progress|]. apply rtc_refl. }
  split; [apply store_ok_empty|]. split; [exact Hrun|].
  exact (runs_keep_store_ok any_object_id empty_world after_two_upserts store_ok_empty Hrun).
Defined.

(** No sequence of requests removes a document, moves one or changes its
    [_id] (the identifiers a collection had are a prefix of those it has
    afterwards), and none removes an uploaded file. *)
Theorem requests_never_delete (to_bson : string → outcome ident) (w w' : world) :
  rtc (step to_bson) w w' →
  (∀ name, doc_id <$> collection w name `prefix_of` doc_id <$> collection w' name) ∧
  dom (uploads w) ⊆ dom (uploads w').
Proof.
  induction 1 as [w|w w1 w2 Hstep _ [IHc IHu]]; [done|]. split.
  - intros name. etrans; [|apply IHc]. apply changes_ids_prefix. by eapply step_changes.
  - etrans; [|apply IHu]. by eapply step_uploads.
Qed.

Lemma requests_never_delete_witness :
  rtc (step any_object_id) one_lesson after_request_and_patch ∧
  (∀ name, doc_id <$> collection one_lesson name
             `prefix_of` doc_id <$> collection after_request_and_patch name) ∧
  dom (uploads one_lesson) ⊆ dom (uploads after_request_and_patch).
Proof.
  assert (rtc (step any_object_id) one_lesson after_request_and_patch) as Hrun.
  { unfold after_request_and_patch.
    eapply rtc_l; [apply step_request_lesson|].
    eapply rtc_l; [apply step_patch_lesson|]. apply rtc_refl. }
  split; [exact Hrun|].
  exact (requests_never_delete any_object_id one_lesson after_request_and_patch Hrun).
Defined.

(** ** The user id taken from the query string *)

(** A request whose query string carries a non-empty [x_user_id] has its
    documents written under that id, whatever its headers and whatever
    [user_id] its body has: the subject appended, and the progress record
    appended or rewritten in place. *)
Theorem query_user_id_is_stored (req : request) (u : string) (body : SubjectBody.t)
    (subject : Subject.t) (progress : Progress.t) (now : Z) (w : world) :
  req_query req !! "x_user_id" = Some u →
  u ≠ "" →
  SubjectBody.validate body = Return subject →
  (∃ d, collection (post_api_subjects req body w).2 "subject"
          = collection w "subject" ++ [d] ∧
        doc_fields d !! "user_id" = Some (VStr u)) ∧
  (let c := collection w "progress" in
   let c' := collection (post_api_progress req progress now w).2 "progress" in
   (∃ d, c' = c ++ [d] ∧ doc_fields d !! "user_id" = Some (VStr u)) ∨
   (∃ l1 d0 d l2, c = l1 ++ d0 :: l2 ∧ c' = l1 ++ d :: l2 ∧
      doc_id d = doc_id d0 ∧ doc_fields d !! "user_id" = Some (VStr u))).
Proof.
  intros Hq Hu Hv.
  assert (∀ b, resolved (current_user_id req) b = Some u) as Hr.
  { intros b. unfold current_user_id, get_current_user_id, resolved.
    rewrite Hq. by destruct u. }
  destruct (resolved_user_id_is_stored subject progress (current_user_id req) now w)
    as [Hsub Hprog].
  split.
  - rewrite (post_api_subjects_valid _ _ subject) by done. by apply Hsub.
  - by apply Hprog.
Qed.

Lemma query_user_id_is_stored_witness :
  req_query (Request {[ "X-User-Id" := "h1" ]} {[ "x_user_id" := "u1" ]}) !! "x_user_id"
    = Some "u1" ∧
  "u1" ≠ "" ∧
  SubjectBody.validate (SubjectBody.Make (Some "body-user") (Some "Chemistry") None)
    = Return (Subject.Make "body-user" "Chemistry" None) ∧
  (∃ d, collection (post_api_subjects
                      (Request {[ "X-User-Id" := "h1" ]} {[ "x_user_id" := "u1" ]})
                      (SubjectBody.Make (Some "body-user") (Some "Chemistry") None)
                      empty_world).2 "subject"
          = collection empty_world "subject" ++ [d] ∧
        doc_fields d !! "user_id" = Some (VStr "u1")) ∧
  (let c := collection empty_world "progress" in
   let c' := collection (post_api_progress
                           (Request {[ "X-User-Id" := "h1" ]} {[ "x_user_id" := "u1" ]})
                           a_progress 7 empty_world).2 "progress" in
   (∃ d, c' = c ++ [d] ∧ doc_fields d !! "user_id" = Some (VStr "u1")) ∨
   (∃ l1 d0 d l2, c = l1 ++ d0 :: l2 ∧ c' = l1 ++ d :: l2 ∧
      doc_id d = doc_id d0 ∧ doc_fields d !! "user_id" = Some (VStr "u1"))).
Proof.
  split; [reflexivity|]. split; [done|]. split; [reflexivity|].
  apply (query_user_id_is_stored
           (Request {[ "X-User-Id" := "h1" ]} {[ "x_user_id" := "u1" ]}) "u1"
           (SubjectBody.Make (Some "body-user") (Some "Chemistry") None)
           (Subject.Make "body-user" "Chemistry" None) a_progress 7 empty_world);
    [reflexivity|done|reflexivity].
Defined.

(** ** A serializer that raises *)

(** When the serializer raises for the text, what it raises is the call's
    answer: the lookup by the text itself is never reached, even for a
    record stored under that very text, and nothing is written. *)
Theorem patch_lesson_serializer_raises (to_bson : string → outcome ident)
    (lesson_id : string) (status input_excerpt explanation : option string)
    (analogies : option (list string)) (error : option string) (now : Z) (w : world)
    (e : exn) :
  to_bson lesson_id = Raise e →
  patch_lesson to_bson lesson_id status input_excerpt explanation analogies error now w
    = (Raise e, w).
Proof. intros He. rewrite patch_lesson_run. unfold located. by rewrite He. Qed.

Lemma patch_lesson_serializer_raises_witness :
  hex_object_id "lesson-1" = Raise (Exception "InvalidId" "lesson-1") ∧
  collection named_lesson "lesson" = [Doc (StrId "lesson-1") explained_lesson] ∧
  patch_lesson hex_object_id "lesson-1" (Some "complete") None None None None 9 named_lesson
    = (Raise (Exception "InvalidId" "lesson-1"), named_lesson).
Proof.
  split; [reflexivity|]. split; [reflexivity|].
  apply (patch_lesson_serializer_raises hex_object_id "lesson-1" (Some "complete")
           None None None None 9 named_lesson (Exception "InvalidId" "lesson-1")).
  reflexivity.
Defined.
